(** * CloudStore: the [create-order] edge function

    A shallow embedding of [supabase/functions/create-order/index.ts]
    together with the part of the database schema (the SQL migration) it
    writes to.

    Conventions of the embedding.
    - A [numeric(10, 2)] column is represented by its number of cents, an
      integer; an [integer] column by the integer itself.  The runs of the
      handler add amounts exactly; the sum of the total as the JavaScript
      runtime computes it, in doubles, is [totalAmount_binary64].
    - Every [await supabase...] is one call to the store.  The handler is a
      tree of such calls ([Prog]); the store answers each call, and may make
      any call fail for a reason of its own (network, policy, ...): the
      outcome of the n-th call is read from a list of booleans, [true]
      meaning that the call fails.
    - The rows keep the columns the function reads or writes. *)

From Stdlib Require Import ZArith List String Ascii Bool Lia DecimalString.
From Stdlib Require PrimFloat FloatOps SpecFloat Uint63.
Import ListNotations.

Local Open Scope string_scope.
Local Open Scope Z_scope.

(** ** Rows *)

Module Product.
Record t : Type := mk
  { id : string;
    name : string;
    price : Z;        (* cents *)
    stock : Z }.
End Product.

Module Order.
Record t : Type := mk
  { id : nat;         (* generated by the store *)
    user_id : string;
    total_amount : Z; (* cents *)
    status : string }.
End Order.

Module OrderItem.
Record t : Type := mk
  { order_id : nat;
    product_id : string;
    quantity : Z;
    price : Z }.      (* cents *)
End OrderItem.

(** [interface CartItem] *)
Module CartItem.
Record t : Type := mk
  { product_id : string;
    quantity : Z }.
End CartItem.

(** ** The store *)

Record Store : Type := mkStore
  { products : list Product.t;
    orders : list Order.t;
    order_items : list OrderItem.t;
    next_order_id : nat }.

(** Largest value of a [numeric(10, 2)] column, in cents, and of an
    [integer] column. *)
Definition numeric_10_2_max : Z := 9999999999.
Definition integer_max : Z := 2147483647.

Definition status_allowed (st : string) : bool :=
  existsb (String.eqb st)
    ["pending"; "processing"; "shipped"; "delivered"; "cancelled"].

(** [.from("products").select("*").in("id", ids)] *)
Definition select_products (ids : list string) (s : Store) : list Product.t :=
  filter (fun p => existsb (String.eqb (Product.id p)) ids) (products s).

(** The constraints of table [orders]. *)
Definition order_row_ok (total : Z) (st : string) : bool :=
  (0 <=? total) && (total <=? numeric_10_2_max) && status_allowed st.

(** The constraints of table [order_items]: the two checks, the column
    ranges and the two foreign keys. *)
Definition order_item_row_ok (s : Store) (r : OrderItem.t) : bool :=
  (0 <? OrderItem.quantity r) && (OrderItem.quantity r <=? integer_max)
  && (0 <=? OrderItem.price r) && (OrderItem.price r <=? numeric_10_2_max)
  && existsb (fun o => Nat.eqb (Order.id o) (OrderItem.order_id r)) (orders s)
  && existsb (fun p => String.eqb (Product.id p) (OrderItem.product_id r))
       (products s).

(** The constraints of column [products.stock]. *)
Definition stock_ok (n : Z) : bool := (0 <=? n) && (n <=? integer_max).

Definition insert_order (user : string) (total : Z) (st : string) (s : Store)
  : Order.t * Store :=
  let o := Order.mk (next_order_id s) user total st in
  (o, mkStore (products s) (orders s ++ [o])%list (order_items s)
        (S (next_order_id s))).

Definition insert_order_items (rows : list OrderItem.t) (s : Store) : Store :=
  mkStore (products s) (orders s) (order_items s ++ rows)%list (next_order_id s).

(** [.from("orders").delete().eq("id", oid)]; the line items go with the
    order ([ON DELETE CASCADE]). *)
Definition delete_order (oid : nat) (s : Store) : Store :=
  mkStore (products s)
    (filter (fun o => negb (Nat.eqb (Order.id o) oid)) (orders s))
    (filter (fun r => negb (Nat.eqb (OrderItem.order_id r) oid))
       (order_items s))
    (next_order_id s).

Definition set_stock (n : Z) (p : Product.t) : Product.t :=
  Product.mk (Product.id p) (Product.name p) (Product.price p) n.

(** [.from("products").update({ stock: n }).eq("id", pid)] *)
Definition update_stock (pid : string) (n : Z) (s : Store) : Store :=
  mkStore
    (map (fun p => if String.eqb (Product.id p) pid then set_stock n p else p)
       (products s))
    (orders s) (order_items s) (next_order_id s).

(** ** Programs over the store *)

(** A handler either returns, throws, or calls the store and goes on with
    the answer.  For the three writes whose answer is a bare [error], the
    continuation receives [true] when there is an error. *)
Inductive Prog (A : Type) : Type :=
| Ret (a : A)
| Throw (message : string)
| SelectProducts (ids : list string) (k : option (list Product.t) -> Prog A)
| InsertOrder (user_id : string) (total_amount : Z) (status : string)
    (k : option Order.t -> Prog A)
| InsertOrderItems (rows : list OrderItem.t) (k : bool -> Prog A)
| DeleteOrder (id : nat) (k : bool -> Prog A)
| UpdateStock (id : string) (stock : Z) (k : bool -> Prog A).

Arguments Ret {A} a.
Arguments Throw {A} message.
Arguments SelectProducts {A} ids k.
Arguments InsertOrder {A} user_id total_amount status k.
Arguments InsertOrderItems {A} rows k.
Arguments DeleteOrder {A} id k.
Arguments UpdateStock {A} id stock k.

(** What the store saw: each call with its outcome ([true]: the call went
    through). *)
Inductive Event : Type :=
| EvSelect (ids : list string) (ok : bool)
| EvInsertOrder (total_amount : Z) (result : option Order.t)
| EvInsertOrderItems (rows : list OrderItem.t) (ok : bool)
| EvDeleteOrder (id : nat) (ok : bool)
| EvUpdateStock (id : string) (stock : Z) (ok : bool).

Definition is_write (e : Event) : bool :=
  match e with
  | EvSelect _ _ => false
  | _ => true
  end.

Inductive Outcome (A : Type) : Type :=
| Returned (a : A)
| Thrown (message : string).

Arguments Returned {A} a.
Arguments Thrown {A} message.

(** The store's side of each call.  [fails]: the store fails the call for
    a reason of its own; otherwise the constraints of the schema decide. *)
Definition call_select (fails : bool) (ids : list string) (s : Store)
  : option (list Product.t) :=
  if fails then None else Some (select_products ids s).

Definition call_insert_order (fails : bool) (user : string) (total : Z)
  (st : string) (s : Store) : option Order.t * Store :=
  if fails || negb (order_row_ok total st) then (None, s)
  else let '(o, s') := insert_order user total st s in (Some o, s').

(** One [insert] of several rows is one statement: all rows or none. *)
Definition call_insert_order_items (fails : bool) (rows : list OrderItem.t)
  (s : Store) : bool * Store :=
  if fails || negb (forallb (order_item_row_ok s) rows) then (true, s)
  else (false, insert_order_items rows s).

Definition call_delete_order (fails : bool) (oid : nat) (s : Store)
  : bool * Store :=
  if fails then (true, s) else (false, delete_order oid s).

Definition call_update_stock (fails : bool) (pid : string) (n : Z)
  (s : Store) : bool * Store :=
  if fails || negb (stock_ok n) then (true, s)
  else (false, update_stock pid n s).

(** One call: the program after the store's answer, the store after the
    call, and the event.  [None] when the program has finished. *)
Definition step {A : Type} (p : Prog A) (fails : bool) (s : Store)
  : option (Prog A * Store * Event) :=
  match p with
  | Ret _ | Throw _ => None
  | SelectProducts ids k =>
      let r := call_select fails ids s in
      Some (k r, s, EvSelect ids (negb fails))
  | InsertOrder u total st k =>
      let '(r, s') := call_insert_order fails u total st s in
      Some (k r, s', EvInsertOrder total r)
  | InsertOrderItems rows k =>
      let '(err, s') := call_insert_order_items fails rows s in
      Some (k err, s', EvInsertOrderItems rows (negb err))
  | DeleteOrder oid k =>
      let '(err, s') := call_delete_order fails oid s in
      Some (k err, s', EvDeleteOrder oid (negb err))
  | UpdateStock pid n k =>
      let '(err, s') := call_update_stock fails pid n s in
      Some (k err, s', EvUpdateStock pid n (negb err))
  end.

Definition next_outcome (fails : list bool) : bool * list bool :=
  match fails with
  | [] => (false, [])
  | f :: fails' => (f, fails')
  end.

(** A whole run of one handler, alone on the store. *)
Fixpoint run {A : Type} (p : Prog A) (fails : list bool) (s : Store)
  : Outcome A * Store * list Event :=
  let f := fst (next_outcome fails) in
  let fails' := snd (next_outcome fails) in
  match p with
  | Ret a => (Returned a, s, [])
  | Throw m => (Thrown m, s, [])
  | SelectProducts ids k =>
      let r := call_select f ids s in
      let '(out, s', tr) := run (k r) fails' s in
      (out, s', EvSelect ids (negb f) :: tr)
  | InsertOrder u total st k =>
      let '(r, s1) := call_insert_order f u total st s in
      let '(out, s', tr) := run (k r) fails' s1 in
      (out, s', EvInsertOrder total r :: tr)
  | InsertOrderItems rows k =>
      let '(err, s1) := call_insert_order_items f rows s in
      let '(out, s', tr) := run (k err) fails' s1 in
      (out, s', EvInsertOrderItems rows (negb err) :: tr)
  | DeleteOrder oid k =>
      let '(err, s1) := call_delete_order f oid s in
      let '(out, s', tr) := run (k err) fails' s1 in
      (out, s', EvDeleteOrder oid (negb err) :: tr)
  | UpdateStock pid n k =>
      let '(err, s1) := call_update_stock f pid n s in
      let '(out, s', tr) := run (k err) fails' s1 in
      (out, s', EvUpdateStock pid n (negb err) :: tr)
  end.

(** ** The handler *)

Inductive ResponseBody : Type :=
| ErrorBody (error : string)
| SuccessBody (order : Order.t).

Record Response : Type := mkResponse
  { status : Z;
    body : ResponseBody }.

Definition error_response (st : Z) (msg : string) : Response :=
  mkResponse st (ErrorBody msg).

Definition success_response (o : Order.t) : Response :=
  mkResponse 200 (SuccessBody o).

(** The value bound to [items] by [const { items } = await req.json()],
    as far as the handler tells values apart. *)
Inductive ItemsValue : Type :=
| ItemsAbsent
    (* [!items || items.length === 0] holds and [items] is not an array:
       undefined, null, false, 0, the empty string, an object whose
       ["length"] is 0 *)
| ItemsArray (items : list CartItem.t)
| ItemsNotArray.
    (* any other value: truthy, not an array; [items.map] is undefined *)

Inductive Body : Type :=
| BodyRejected (message : string)
    (* [req.json()] rejects, or the destructuring throws *)
| BodyJson (items : ItemsValue).

Definition string_of_Z (z : Z) : string :=
  NilZero.string_of_int (Z.to_int z).

Definition find_product (products : list Product.t) (pid : string)
  : option Product.t :=
  find (fun p => String.eqb (Product.id p) pid) products.

(** Lines 84-106: the first loop.  [None]: every item went through. *)
Fixpoint validate (products : list Product.t) (items : list CartItem.t)
  : option Response :=
  match items with
  | [] => None
  | item :: rest =>
      match find_product products (CartItem.product_id item) with
      | None =>
          Some (error_response 404
                  ("Product " ++ CartItem.product_id item ++ " not found"))
      | Some product =>
          if Product.stock product <? CartItem.quantity item
          then Some (error_response 400
                       ("Insufficient stock for " ++ Product.name product
                        ++ ". Available: "
                        ++ string_of_Z (Product.stock product)))
          else validate products rest
      end
  end.

(** Lines 108-114. *)
Definition totalAmount (products : list Product.t) (items : list CartItem.t)
  : Z :=
  fold_left
    (fun total item =>
       match find_product products (CartItem.product_id item) with
       | Some product =>
           total + Product.price product * CartItem.quantity item
       | None => total
       end)
    items 0.

(** Lines 136-144; [product!.price] throws when [product] is undefined. *)
Fixpoint orderItems (order : Order.t) (products : list Product.t)
  (items : list CartItem.t) : Outcome (list OrderItem.t) :=
  match items with
  | [] => Returned []
  | item :: rest =>
      match find_product products (CartItem.product_id item) with
      | None =>
          Thrown "Cannot read properties of undefined (reading 'price')"
      | Some product =>
          match orderItems order products rest with
          | Thrown m => Thrown m
          | Returned rows =>
              Returned
                (OrderItem.mk (Order.id order) (CartItem.product_id item)
                   (CartItem.quantity item) (Product.price product)
                 :: rows)
          end
      end
  end.

(** Lines 161-169: the answers of the updates are dropped. *)
Fixpoint update_stocks {A : Type} (products : list Product.t)
  (items : list CartItem.t) (k : Prog A) : Prog A :=
  match items with
  | [] => k
  | item :: rest =>
      match find_product products (CartItem.product_id item) with
      | Some product =>
          UpdateStock (CartItem.product_id item)
            (Product.stock product - CartItem.quantity item)
            (fun _ => update_stocks products rest k)
      | None => update_stocks products rest k
      end
  end.

(** Lines 56-177, for the caller [user] that lines 32-54 resolved. *)
Definition place_order (user : string) (b : Body) : Prog Response :=
  match b with
  | BodyRejected m => Throw m
  | BodyJson ItemsAbsent => Ret (error_response 400 "Cart is empty")
  | BodyJson ItemsNotArray => Throw "items.map is not a function"
  | BodyJson (ItemsArray []) => Ret (error_response 400 "Cart is empty")
  | BodyJson (ItemsArray items) =>
      SelectProducts (map CartItem.product_id items) (fun fetched =>
        match fetched with
        | None => Ret (error_response 500 "Failed to fetch products")
        | Some products =>
            match validate products items with
            | Some resp => Ret resp
            | None =>
                InsertOrder user (totalAmount products items) "pending"
                  (fun inserted =>
                     match inserted with
                     | None =>
                         Ret (error_response 500 "Failed to create order")
                     | Some order =>
                         match orderItems order products items with
                         | Thrown m => Throw m
                         | Returned rows =>
                             InsertOrderItems rows (fun orderItemsError =>
                               if orderItemsError
                               then DeleteOrder (Order.id order) (fun _ =>
                                      Ret (error_response 500
                                             "Failed to create order items"))
                               else update_stocks products items
                                      (Ret (success_response order)))
                         end
                     end)
            end
        end)
  end.

(** Lines 178-186: the [catch]. *)
Definition catch_handler (out : Outcome Response) : Response :=
  match out with
  | Returned r => r
  | Thrown m =>
      error_response 500
        (if String.eqb m "" then "Internal server error" else m)
  end.

(** The function on one request, alone on the store. *)
Definition create_order (user : string) (b : Body) (fails : list bool)
  (s : Store) : Response * Store * list Event :=
  let '(out, s', tr) := run (place_order user b) fails s in
  (catch_handler out, s', tr).

(** ** Two handlers on one store *)

(** [sched] says which handler makes the next call ([true]: the first);
    a handler that has finished leaves the turn to the other.  When the
    schedule is used up the first handler runs to its end, then the
    second.  No call fails for a reason of the store's own. *)
Fixpoint interleave {A : Type} (sched : list bool) (p1 p2 : Prog A)
  (s : Store) : Prog A * Prog A * Store :=
  match sched with
  | [] => (p1, p2, s)
  | b :: sched' =>
      if b
      then match step p1 false s with
           | Some (p1', s', _) => interleave sched' p1' p2 s'
           | None =>
               match step p2 false s with
               | Some (p2', s', _) => interleave sched' p1 p2' s'
               | None => (p1, p2, s)
               end
           end
      else match step p2 false s with
           | Some (p2', s', _) => interleave sched' p1 p2' s'
           | None =>
               match step p1 false s with
               | Some (p1', s', _) => interleave sched' p1' p2 s'
               | None => (p1, p2, s)
               end
           end
  end.

Definition create_order2 (sched : list bool) (user1 : string) (b1 : Body)
  (user2 : string) (b2 : Body) (s : Store) : Response * Response * Store :=
  let '(p1, p2, s1) :=
    interleave sched (place_order user1 b1) (place_order user2 b2) s in
  let '(out1, s2, _) := run p1 [] s1 in
  let '(out2, s3, _) := run p2 [] s2 in
  (catch_handler out1, catch_handler out2, s3).

(** ** Reading the store *)

Definition line_items_of (oid : nat) (s : Store) : list OrderItem.t :=
  filter (fun r => Nat.eqb (OrderItem.order_id r) oid) (order_items s).

Definition order_exists (oid : nat) (s : Store) : bool :=
  existsb (fun o => Nat.eqb (Order.id o) oid) (orders s).

Definition stock_of (pid : string) (s : Store) : option Z :=
  option_map Product.stock (find_product (products s) pid).

Definition lines_total (rows : list OrderItem.t) : Z :=
  fold_right (fun r acc => OrderItem.price r * OrderItem.quantity r + acc)
    0 rows.

(** The store has numbered every order it holds, and every line item
    belongs to an order it has numbered. *)
Definition store_wf (s : Store) : Prop :=
  Forall (fun o => (Order.id o < next_order_id s)%nat) (orders s) /\
  Forall (fun r => (OrderItem.order_id r < next_order_id s)%nat)
    (order_items s).

(** No product has a negative stock. *)
Definition stock_nonneg (s : Store) : Prop :=
  Forall (fun p => 0 <= Product.stock p) (products s).

(** ** Sample data *)

Definition product_A : Product.t := Product.mk "A" "Widget" 1000 5.
Definition product_B : Product.t := Product.mk "B" "Gadget" 2000 2.
Definition product_C : Product.t := Product.mk "C" "Last one" 500 1.

Definition store0 : Store :=
  mkStore [product_A; product_B; product_C] [] [] 0.

Definition cart (l : list (string * Z)) : Body :=
  BodyJson (ItemsArray (map (fun x => CartItem.mk (fst x) (snd x)) l)).

(** ** Vocabulary of the statements *)

Definition is_stock_update (e : Event) : bool :=
  match e with
  | EvUpdateStock _ _ _ => true
  | _ => false
  end.

(** An entry the first loop lets through, for the products [ps]. *)
Definition passes (ps : list Product.t) (item : CartItem.t) : Prop :=
  exists p, find_product ps (CartItem.product_id item) = Some p /\
            CartItem.quantity item <= Product.stock p.

(** The header the handler asks the store to insert. *)
Definition new_order (user : string) (items : list CartItem.t) (s : Store)
  : Order.t :=
  Order.mk (next_order_id s) user
    (totalAmount (select_products (map CartItem.product_id items) s) items)
    "pending".

Definition no_writes (tr : list Event) : bool :=
  forallb (fun e => negb (is_write e)) tr.

(** An entry whose product the catalog does not have. *)
Definition absent (ps : list Product.t) (item : CartItem.t) : Prop :=
  find_product ps (CartItem.product_id item) = None.

(** An entry that asks for more than the catalog has of its product. *)
Definition short (ps : list Product.t) (item : CartItem.t) : Prop :=
  exists p, find_product ps (CartItem.product_id item) = Some p /\
            Product.stock p < CartItem.quantity item.

Definition error_of (r : Response) : string :=
  match body r with
  | ErrorBody e => e
  | SuccessBody _ => ""
  end.

(** [mentions what msg]: [what] occurs in [msg]. *)
Definition mentions (what msg : string) : bool :=
  match String.index 0 what msg with
  | Some _ => true
  | None => false
  end.

Definition order_0 (total : Z) : Order.t := Order.mk 0 "u" total "pending".

(** ** The whole handler: preflight and caller *)

(** What lines 19-54 read of the request, and its JSON body. *)
Module Request.
Record t : Type := mk
  { method : string;
    authorization : option string;  (* [req.headers.get("Authorization")] *)
    json : Body }.
End Request.

Fixpoint drop (n : nat) (s : string) : string :=
  match n, s with
  | O, _ => s
  | S _, EmptyString => EmptyString
  | S n', String _ s' => drop n' s'
  end.

(** [s.replace(pat, rep)] for a string pattern: the first occurrence of
    [pat] in [s] is replaced, the rest is kept. *)
Fixpoint replace_first (pat rep s : string) : string :=
  if String.prefix pat s then rep ++ drop (String.length pat) s
  else match s with
       | EmptyString => EmptyString
       | String c s' => String c (replace_first pat rep s')
       end.

(** The response of the preflight has no body. *)
Inductive Reply : Type :=
| Preflight
| Answer (r : Response).

Definition reply_status (x : Reply) : Z :=
  match x with
  | Preflight => 200
  | Answer r => status r
  end.

(** Lines 19-187.  [auth] is [supabase.auth.getUser]: it returns the id of
    the user of a token, or nothing when there is an error or no user, or
    throws. *)
Definition serve (auth : string -> Outcome (option string))
  (req : Request.t) (fails : list bool) (s : Store)
  : Reply * Store * list Event :=
  if String.eqb (Request.method req) "OPTIONS" then (Preflight, s, [])
  else
    match Request.authorization req with
    | None =>
        (Answer (error_response 401 "Missing authorization header"), s, [])
    | Some authHeader =>
        if String.eqb authHeader ""
        then (Answer (error_response 401 "Missing authorization header"),
              s, [])
        else
          let token := replace_first "Bearer " "" authHeader in
          match auth token with
          | Thrown m => (Answer (catch_handler (Thrown m)), s, [])
          | Returned None =>
              (Answer (error_response 401 "Invalid or expired token"), s, [])
          | Returned (Some user) =>
              let '(r, s', tr) := create_order user (Request.json req) fails s
              in (Answer r, s', tr)
          end
    end.

(** ** The trace as a log of the store *)

Definition apply_event (e : Event) (s : Store) : Store :=
  match e with
  | EvInsertOrder _ (Some o) =>
      mkStore (products s) (orders s ++ [o])%list (order_items s)
        (S (next_order_id s))
  | EvInsertOrderItems rows true => insert_order_items rows s
  | EvDeleteOrder oid true => delete_order oid s
  | EvUpdateStock pid n true => update_stock pid n s
  | _ => s
  end.

Definition replay (tr : list Event) (s : Store) : Store :=
  fold_left (fun s e => apply_event e s) tr s.

Definition update_failed (e : Event) : bool :=
  match e with
  | EvUpdateStock _ _ false => true
  | _ => false
  end.

(** The columns of a product that no call of the handler writes. *)
Definition catalog_entry (p : Product.t) : string * string * Z :=
  (Product.id p, Product.name p, Product.price p).

(** ** The pages that fill and send the cart *)

(** [CartItem] of the cart context: a product and a quantity. *)
Module CartLine.
Record t : Type := mk
  { product : Product.t;
    quantity : Z }.
End CartLine.

Inductive UiEffect : Type :=
| Alert (message : string)
| Navigate (page : string)
| ClearCart
| AddToCart (product : Product.t) (quantity : Z)
| SetLoading (loading : bool)
| ConsoleError.

Definition is_success (b : ResponseBody) : bool :=
  match b with
  | SuccessBody _ => true
  | ErrorBody _ => false
  end.

Definition checkout_failed : list UiEffect :=
  [SetLoading true; ConsoleError;
   Alert "Failed to place order. Please try again."; SetLoading false].

(** [handleCheckout] of the cart page, against the function above.
    [user]: the user of the auth context; [session]: the access token of
    [supabase.auth.getSession()], if there is a session; [network_down]:
    [fetch] rejects and the request does not reach the function. *)
Definition handleCheckout (auth : string -> Outcome (option string))
  (user : option string) (cart : list CartLine.t) (session : option string)
  (network_down : bool) (fails : list bool) (s : Store)
  : list UiEffect * Store * list Event :=
  match user with
  | None =>
      ([Alert "Please login to place an order"; Navigate "login"], s, [])
  | Some _ =>
      match cart with
      | [] => ([Alert "Your cart is empty"], s, [])
      | _ :: _ =>
          match session with
          | None =>
              ([SetLoading true; Alert "Please login to place an order";
                Navigate "login"; SetLoading false], s, [])
          | Some access_token =>
              if network_down then (checkout_failed, s, [])
              else
                let orderItems :=
                  map (fun item =>
                         CartItem.mk (Product.id (CartLine.product item))
                           (CartLine.quantity item))
                    cart in
                let '(reply, s', tr) :=
                  serve auth
                    (Request.mk "POST" (Some ("Bearer " ++ access_token))
                       (BodyJson (ItemsArray orderItems)))
                    fails s in
                match reply with
                | Preflight => (checkout_failed, s', tr)
                | Answer r =>
                    if (200 <=? status r) && (status r <=? 299)
                       && is_success (body r)
                    then ([SetLoading true;
                           Alert "Order placed successfully!";
                           ClearCart; Navigate "orders"; SetLoading false],
                          s', tr)
                    else ([SetLoading true;
                           Alert (if String.eqb (error_of r) ""
                                  then "Failed to place order"
                                  else error_of r);
                           SetLoading false],
                          s', tr)
                end
          end
      end
  end.

(** The quantity field of the product page: the two buttons and the
    input, whose text [parseInt] reads as a number or as NaN ([None]). *)
Inductive QuantityAction : Type :=
| Minus
| Plus
| Typed (parsed : option Z).

Definition setQuantity (stock : Z) (quantity : Z) (a : QuantityAction) : Z :=
  match a with
  | Minus => Z.max 1 (quantity - 1)
  | Plus => Z.min stock (quantity + 1)
  | Typed parsed =>
      Z.max 1
        (match parsed with
         | Some n => if n =? 0 then 1 else n
         | None => 1
         end)
  end.

(** [handleAddToCart] of the product page. *)
Definition handleAddToCart (product : option Product.t) (quantity : Z)
  : list UiEffect :=
  match product with
  | Some p =>
      if quantity <=? Product.stock p
      then [AddToCart p quantity;
            Alert (string_of_Z quantity ++ " x " ++ Product.name p
                   ++ " added to cart!")]
      else [Alert "Insufficient stock!"]
  | None => [Alert "Insufficient stock!"]
  end.

(** The product page, from its first display (quantity 1) through the
    actions on the quantity field to the click on "Add to Cart"; the
    button is disabled when the stock is 0. *)
Definition product_page (p : Product.t) (actions : list QuantityAction)
  : list UiEffect :=
  if Product.stock p =? 0 then []
  else handleAddToCart (Some p)
         (fold_left (setQuantity (Product.stock p)) actions 1).

(** [handleAddToCart] of the home page. *)
Definition handleAddToCart_home (p : Product.t) : list UiEffect :=
  if 0 <? Product.stock p
  then [AddToCart p 1; Alert (Product.name p ++ " added to cart!")]
  else [Alert "Product out of stock!"].

(** [getStatusColor] of the orders page. *)
Definition getStatusColor (st : string) : string :=
  if String.eqb st "pending" then "bg-yellow-100 text-yellow-800"
  else if String.eqb st "processing" then "bg-blue-100 text-blue-800"
  else if String.eqb st "shipped" then "bg-purple-100 text-purple-800"
  else if String.eqb st "delivered" then "bg-green-100 text-green-800"
  else if String.eqb st "cancelled" then "bg-red-100 text-red-800"
  else "bg-gray-100 text-gray-800".

(** An identity service for the examples: one token, one user. *)
Definition auth_alice (token : string) : Outcome (option string) :=
  if String.eqb token "tok" then Returned (Some "alice") else Returned None.

(** The filter of a failed insert that is undone. *)
Definition keeps_order (oid : nat) (o : Order.t) : bool :=
  negb (Nat.eqb (Order.id o) oid).

(** The update of the last loop for an entry, for the products [ps] read:
    the stock read minus the quantity of the entry. *)
Definition update_of (ps : list Product.t) (item : CartItem.t) (e : Event)
  : Prop :=
  exists p ok,
    find_product ps (CartItem.product_id item) = Some p /\
    e = EvUpdateStock (CartItem.product_id item)
          (Product.stock p - CartItem.quantity item) ok.

(** ** The total in the arithmetic of the runtime *)

(** The JavaScript number of an integer: the integer itself up to 2^53,
    the nearest double beyond. *)
Definition binary64_of_Z (z : Z) : PrimFloat.float :=
  if Z.abs z <? 9007199254740992
  then match z with
       | Z0 => PrimFloat.zero
       | Zpos _ => PrimFloat.of_uint63 (Uint63.of_Z z)
       | Zneg p => PrimFloat.opp (PrimFloat.of_uint63 (Uint63.of_Z (Zpos p)))
       end
  else FloatOps.SF2Prim
         (SpecFloat.binary_normalize FloatOps.prec FloatOps.emax z 0 false).

(** The JavaScript number that the client library gives for a
    [numeric(10, 2)] value of [cents] cents: the double nearest to
    [cents / 100]. *)
Definition js_number_of_cents (cents : Z) : PrimFloat.float :=
  PrimFloat.div (binary64_of_Z cents) (binary64_of_Z 100).

(** Lines 108-114 as the runtime computes them, in doubles. *)
Definition totalAmount_binary64 (products : list Product.t)
  (items : list CartItem.t) : PrimFloat.float :=
  fold_left
    (fun total item =>
       match find_product products (CartItem.product_id item) with
       | Some product =>
           PrimFloat.add total
             (PrimFloat.mul (js_number_of_cents (Product.price product))
                (binary64_of_Z (CartItem.quantity item)))
       | None => total
       end)
    items PrimFloat.zero.

(** The integer part of [k] times the absolute value of a double; nothing
    for an infinity or a NaN. *)
Definition abs_scaled_floor (k : Z) (x : PrimFloat.float) : option Z :=
  match FloatOps.Prim2SF x with
  | SpecFloat.S754_zero _ => Some 0
  | SpecFloat.S754_finite _ m e =>
      Some (match e with
            | Z0 => k * Zpos m
            | Zpos _ => k * Zpos m * 2 ^ e
            | Zneg p => (k * Zpos m) / 2 ^ Zpos p
            end)
  | _ => None
  end.

(** What a [numeric(10, 2)] column keeps of a number, in cents: the number
    rounded to two decimals, halves away from zero. *)
Definition numeric_10_2_of_binary64 (x : PrimFloat.float) : option Z :=
  option_map
    (fun t =>
       let r := (t + 1) / 2 in
       if PrimFloat.ltb x PrimFloat.zero then - r else r)
    (abs_scaled_floor 200 x).

(** A product of 33.32 and a cart that names it three million times, one
    unit each. *)
Definition product_D : Product.t := Product.mk "D" "Cable" 3332 5.

Definition cart_D : list CartItem.t :=
  repeat (CartItem.mk "D" 1) (N.to_nat 3000000).

Definition store_D : Store := mkStore [product_D] [] [] 0.

(** ** The calls of a run *)

(** [step] and [run] agree: a run is its first call followed by the run of
    what is left. *)
Lemma run_step {A : Type} (p p' : Prog A) (f : bool) (fails : list bool)
  (s s1 : Store) (e : Event) :
  step p f s = Some (p', s1, e) ->
  run p (f :: fails) s =
  (let '(out, s', tr) := run p' fails s1 in (out, s', e :: tr)).
Proof.
  destruct p; simpl; try discriminate.
  - intros H; inversion H; subst; reflexivity.
  - destruct (call_insert_order f user_id total_amount status0 s) as [r s2].
    intros H; inversion H; subst; reflexivity.
  - destruct (call_insert_order_items f rows s) as [err s2].
    intros H; inversion H; subst; reflexivity.
  - destruct (call_delete_order f id s) as [err s2].
    intros H; inversion H; subst; reflexivity.
  - destruct (call_update_stock f id stock s) as [err s2].
    intros H; inversion H; subst; reflexivity.
Qed.

(** An update of a stock leaves the order tables alone. *)
Lemma call_update_stock_frame (f : bool) (pid : string) (n : Z) (s : Store) :
  orders (snd (call_update_stock f pid n s)) = orders s /\
  order_items (snd (call_update_stock f pid n s)) = order_items s /\
  next_order_id (snd (call_update_stock f pid n s)) = next_order_id s.
Proof.
  unfold call_update_stock.
  destruct (f || negb (stock_ok n)); simpl; auto.
Qed.

(** The last loop always reaches the response that follows it, whatever the
    store answers, and touches nothing but stocks. *)
Lemma run_update_stocks (ps : list Product.t) (items : list CartItem.t)
  (r : Response) :
  forall (fails : list bool) (s : Store),
  exists s' tr,
    run (update_stocks ps items (Ret r)) fails s = (Returned r, s', tr) /\
    orders s' = orders s /\
    order_items s' = order_items s /\
    next_order_id s' = next_order_id s /\
    forallb is_stock_update tr = true.
Proof.
  induction items as [| item rest IH]; intros fails s; simpl.
  - exists s, []. repeat split; reflexivity.
  - destruct (find_product ps (CartItem.product_id item)) as [p |].
    + simpl.
      pose proof (call_update_stock_frame (fst (next_outcome fails))
                    (CartItem.product_id item)
                    (Product.stock p - CartItem.quantity item) s) as Hf.
      destruct (call_update_stock _ _ _ s) as [err s1]. simpl in Hf.
      destruct Hf as (Ho & Hi & Hn).
      destruct (IH (snd (next_outcome fails)) s1) as (s' & tr & Hr & Ho' & Hi' & Hn' & Htr).
      rewrite Hr.
      eexists _, _. split; [reflexivity |].
      repeat split; try congruence. simpl. exact Htr.
    + apply IH.
Qed.

(** ** Invariants of the store *)

Lemma Forall_lt_S {A : Type} (f : A -> nat) (n : nat) (l : list A) :
  Forall (fun x => (f x < n)%nat) l -> Forall (fun x => (f x < S n)%nat) l.
Proof. apply Forall_impl. intros x Hx. lia. Qed.

Lemma Forall_filter {A : Type} (P : A -> Prop) (f : A -> bool)
  (l : list A) :
  Forall P l -> Forall P (filter f l).
Proof.
  induction 1 as [| x l Hx _ IH]; simpl; [constructor |].
  destruct (f x); [constructor |]; assumption.
Qed.

Lemma call_insert_order_wf (f : bool) (user : string) (total : Z)
  (st : string) (s : Store) :
  store_wf s -> store_wf (snd (call_insert_order f user total st s)).
Proof.
  intros [Ho Hi]. unfold call_insert_order.
  destruct (f || negb (order_row_ok total st)); simpl; [split; assumption |].
  split; simpl.
  - apply Forall_app. split; [apply Forall_lt_S; exact Ho |].
    constructor; [simpl; lia | constructor].
  - apply Forall_lt_S; exact Hi.
Qed.

Lemma call_insert_order_items_wf (f : bool) (rows : list OrderItem.t)
  (s : Store) :
  store_wf s -> store_wf (snd (call_insert_order_items f rows s)).
Proof.
  intros [Ho Hi]. unfold call_insert_order_items.
  destruct (f || negb (forallb (order_item_row_ok s) rows)) eqn:E; simpl;
    [split; assumption |].
  apply orb_false_elim in E. destruct E as [_ E].
  apply negb_false_iff in E. rewrite forallb_forall in E.
  split; simpl; [exact Ho |].
  apply Forall_app. split; [exact Hi |].
  apply Forall_forall. intros row Hrow.
  specialize (E row Hrow). unfold order_item_row_ok in E.
  repeat (apply andb_prop in E; destruct E as [E ?]).
  match goal with
  | K : existsb _ (orders s) = true |- _ =>
      apply existsb_exists in K; destruct K as (o & Hin & Eid)
  end.
  apply Nat.eqb_eq in Eid. rewrite <- Eid.
  rewrite Forall_forall in Ho. apply Ho; exact Hin.
Qed.

Lemma call_delete_order_wf (f : bool) (oid : nat) (s : Store) :
  store_wf s -> store_wf (snd (call_delete_order f oid s)).
Proof.
  intros [Ho Hi]. unfold call_delete_order.
  destruct f; simpl; split; try assumption; apply Forall_filter; assumption.
Qed.

Lemma call_update_stock_wf (f : bool) (pid : string) (n : Z) (s : Store) :
  store_wf s -> store_wf (snd (call_update_stock f pid n s)).
Proof.
  intros [Ho Hi]. unfold call_update_stock.
  destruct (f || negb (stock_ok n)); simpl; split; assumption.
Qed.

Lemma call_stock_nonneg_insert_order (f : bool) (user : string) (total : Z)
  (st : string) (s : Store) :
  stock_nonneg s -> stock_nonneg (snd (call_insert_order f user total st s)).
Proof.
  unfold call_insert_order.
  destruct (f || negb (order_row_ok total st)); simpl; auto.
Qed.

Lemma call_stock_nonneg_insert_order_items (f : bool)
  (rows : list OrderItem.t) (s : Store) :
  stock_nonneg s -> stock_nonneg (snd (call_insert_order_items f rows s)).
Proof.
  unfold call_insert_order_items.
  destruct (f || negb (forallb (order_item_row_ok s) rows)); simpl; auto.
Qed.

Lemma call_stock_nonneg_delete_order (f : bool) (oid : nat) (s : Store) :
  stock_nonneg s -> stock_nonneg (snd (call_delete_order f oid s)).
Proof. unfold call_delete_order. destruct f; simpl; auto. Qed.

(** The store refuses a negative stock. *)
Lemma call_stock_nonneg_update_stock (f : bool) (pid : string) (n : Z)
  (s : Store) :
  stock_nonneg s -> stock_nonneg (snd (call_update_stock f pid n s)).
Proof.
  intros H. unfold call_update_stock.
  destruct (f || negb (stock_ok n)) eqn:E; simpl; [exact H |].
  apply orb_false_elim in E. destruct E as [_ E].
  apply negb_false_iff in E. unfold stock_ok in E.
  apply andb_prop in E. destruct E as [E _]. apply Z.leb_le in E.
  unfold stock_nonneg, update_stock in *; simpl.
  induction H as [| p rest Hp _ IH]; simpl; constructor; auto.
  destruct (String.eqb (Product.id p) pid); simpl; auto.
Qed.

(** A property of the store that every call keeps is kept by every run of
    every handler, alone or interleaved with another. *)
Section Invariant.

Variable Inv : Store -> Prop.

Hypothesis insert_order_inv :
  forall f user total st s,
  Inv s -> Inv (snd (call_insert_order f user total st s)).
Hypothesis insert_order_items_inv :
  forall f rows s, Inv s -> Inv (snd (call_insert_order_items f rows s)).
Hypothesis delete_order_inv :
  forall f oid s, Inv s -> Inv (snd (call_delete_order f oid s)).
Hypothesis update_stock_inv :
  forall f pid n s, Inv s -> Inv (snd (call_update_stock f pid n s)).

Lemma step_inv {A : Type} (p p' : Prog A) (f : bool) (s s' : Store)
  (e : Event) :
  step p f s = Some (p', s', e) -> Inv s -> Inv s'.
Proof.
  destruct p as [a | m | ids k | u total st k | rows k | oid k | pid n k];
    simpl; try discriminate.
  - intros H; inversion H; subst; auto.
  - pose proof (insert_order_inv f u total st s) as K.
    destruct (call_insert_order f u total st s) as [r s1].
    intros H; inversion H; subst; auto.
  - pose proof (insert_order_items_inv f rows s) as K.
    destruct (call_insert_order_items f rows s) as [err s1].
    intros H; inversion H; subst; auto.
  - pose proof (delete_order_inv f oid s) as K.
    destruct (call_delete_order f oid s) as [err s1].
    intros H; inversion H; subst; auto.
  - pose proof (update_stock_inv f pid n s) as K.
    destruct (call_update_stock f pid n s) as [err s1].
    intros H; inversion H; subst; auto.
Qed.

Lemma run_inv {A : Type} (p : Prog A) :
  forall (fails : list bool) (s : Store),
  Inv s -> Inv (snd (fst (run p fails s))).
Proof.
  induction p as [a | m | ids k IH | u total st k IH | rows k IH
                 | oid k IH | pid n k IH];
    intros fails s Hs; cbn [run].
  - exact Hs.
  - exact Hs.
  - specialize (IH (call_select (fst (next_outcome fails)) ids s)
                  (snd (next_outcome fails)) s Hs).
    destruct (run (k _) _ s) as [[out s'] tr]. exact IH.
  - pose proof (insert_order_inv (fst (next_outcome fails)) u total st s Hs)
      as H1.
    destruct (call_insert_order _ u total st s) as [r s1].
    specialize (IH r (snd (next_outcome fails)) s1 H1).
    destruct (run (k r) _ s1) as [[out s'] tr]. exact IH.
  - pose proof (insert_order_items_inv (fst (next_outcome fails)) rows s Hs)
      as H1.
    destruct (call_insert_order_items _ rows s) as [err s1].
    specialize (IH err (snd (next_outcome fails)) s1 H1).
    destruct (run (k err) _ s1) as [[out s'] tr]. exact IH.
  - pose proof (delete_order_inv (fst (next_outcome fails)) oid s Hs) as H1.
    destruct (call_delete_order _ oid s) as [err s1].
    specialize (IH err (snd (next_outcome fails)) s1 H1).
    destruct (run (k err) _ s1) as [[out s'] tr]. exact IH.
  - pose proof (update_stock_inv (fst (next_outcome fails)) pid n s Hs)
      as H1.
    destruct (call_update_stock _ pid n s) as [err s1].
    specialize (IH err (snd (next_outcome fails)) s1 H1).
    destruct (run (k err) _ s1) as [[out s'] tr]. exact IH.
Qed.

Lemma interleave_inv {A : Type} (sched : list bool) :
  forall (p1 p2 : Prog A) (s : Store),
  Inv s -> Inv (snd (interleave sched p1 p2 s)).
Proof.
  induction sched as [| b sched IH]; intros p1 p2 s Hs; simpl; [exact Hs |].
  destruct b.
  - destruct (step p1 false s) as [[[p1' s'] e] |] eqn:S1.
    + apply IH. exact (step_inv _ _ _ _ _ _ S1 Hs).
    + destruct (step p2 false s) as [[[p2' s'] e] |] eqn:S2; [| exact Hs].
      apply IH. exact (step_inv _ _ _ _ _ _ S2 Hs).
  - destruct (step p2 false s) as [[[p2' s'] e] |] eqn:S2.
    + apply IH. exact (step_inv _ _ _ _ _ _ S2 Hs).
    + destruct (step p1 false s) as [[[p1' s'] e] |] eqn:S1; [| exact Hs].
      apply IH. exact (step_inv _ _ _ _ _ _ S1 Hs).
Qed.

Lemma create_order_inv (user : string) (b : Body) (fails : list bool)
  (s : Store) :
  Inv s -> Inv (snd (fst (create_order user b fails s))).
Proof.
  intros Hs. unfold create_order.
  pose proof (run_inv (place_order user b) fails s Hs) as H.
  destruct (run (place_order user b) fails s) as [[out s'] tr]. exact H.
Qed.

Lemma create_order2_inv (sched : list bool) (user1 : string) (b1 : Body)
  (user2 : string) (b2 : Body) (s : Store) :
  Inv s -> Inv (snd (create_order2 sched user1 b1 user2 b2 s)).
Proof.
  intros Hs. unfold create_order2.
  pose proof (interleave_inv sched (place_order user1 b1)
                (place_order user2 b2) s Hs) as H.
  destruct (interleave sched _ _ s) as [[p1 p2] s1]. simpl in H.
  pose proof (run_inv p1 [] s1 H) as H1.
  destruct (run p1 [] s1) as [[out1 s2] tr1]. simpl in H1.
  pose proof (run_inv p2 [] s2 H1) as H2.
  destruct (run p2 [] s2) as [[out2 s3] tr2]. exact H2.
Qed.

End Invariant.

(** The numbering of orders is kept by every run. *)
Lemma create_order_wf (user : string) (b : Body) (fails : list bool)
  (s : Store) :
  store_wf s -> store_wf (snd (fst (create_order user b fails s))).
Proof.
  apply create_order_inv.
  - apply call_insert_order_wf.
  - apply call_insert_order_items_wf.
  - apply call_delete_order_wf.
  - apply call_update_stock_wf.
Qed.

(** X11: no stock in the store is ever negative, also when two handlers
    race: the store refuses such an update. *)
Lemma create_order2_stock_nonneg (sched : list bool) (user1 : string)
  (b1 : Body) (user2 : string) (b2 : Body) (s : Store) :
  stock_nonneg s ->
  stock_nonneg (snd (create_order2 sched user1 b1 user2 b2 s)).
Proof.
  apply create_order2_inv.
  - apply call_stock_nonneg_insert_order.
  - apply call_stock_nonneg_insert_order_items.
  - apply call_stock_nonneg_delete_order.
  - apply call_stock_nonneg_update_stock.
Qed.

(** ** The validation loop *)

Section Validation.

Variable ps : list Product.t.

Lemma validate_none (items : list CartItem.t) :
  validate ps items = None -> Forall (passes ps) items.
Proof.
  induction items as [| item rest IH]; simpl; intros H.
  - constructor.
  - destruct (find_product ps (CartItem.product_id item)) as [p |] eqn:F;
      [| discriminate].
    destruct (Product.stock p <? CartItem.quantity item) eqn:L;
      [discriminate |].
    apply Z.ltb_ge in L.
    constructor; [exists p; auto | auto].
Qed.

Lemma validate_skip (pre rest : list CartItem.t) :
  Forall (passes ps) pre -> validate ps (pre ++ rest) = validate ps rest.
Proof.
  induction 1 as [| item pre (p & F & L) _ IH]; simpl; [reflexivity |].
  rewrite F. apply Z.ltb_ge in L. rewrite L. exact IH.
Qed.

(** A rejection of the first loop is a 404 or a 400. *)
Lemma validate_some (items : list CartItem.t) (r : Response) :
  validate ps items = Some r ->
  exists msg, r = error_response 404 msg \/ r = error_response 400 msg.
Proof.
  induction items as [| item rest IH]; simpl; [discriminate |].
  destruct (find_product ps (CartItem.product_id item)) as [p |].
  - destruct (Product.stock p <? CartItem.quantity item).
    + intros H; inversion H; eexists; right; reflexivity.
    + exact IH.
  - intros H; inversion H; eexists; left; reflexivity.
Qed.

(** The rows built for the insert, when every product is found. *)
Lemma orderItems_rows (o : Order.t) (items : list CartItem.t)
  (rows : list OrderItem.t) :
  orderItems o ps items = Returned rows ->
  Forall2
    (fun item row =>
       OrderItem.order_id row = Order.id o /\
       OrderItem.product_id row = CartItem.product_id item /\
       OrderItem.quantity row = CartItem.quantity item /\
       exists p, find_product ps (CartItem.product_id item) = Some p /\
                 OrderItem.price row = Product.price p)
    items rows.
Proof.
  revert rows.
  induction items as [| item rest IH]; simpl; intros rows H.
  - inversion H; constructor.
  - destruct (find_product ps (CartItem.product_id item)) as [p |] eqn:F;
      [| discriminate].
    destruct (orderItems o ps rest) as [rows' | m]; [| discriminate].
    inversion H; subst. constructor.
    + simpl. repeat split. exists p; auto.
    + apply IH; reflexivity.
Qed.

Lemma totalAmount_from (items : list CartItem.t) (acc : Z) :
  fold_left
    (fun total item =>
       match find_product ps (CartItem.product_id item) with
       | Some product =>
           total + Product.price product * CartItem.quantity item
       | None => total
       end)
    items acc
  = acc + totalAmount ps items.
Proof.
  unfold totalAmount. revert acc.
  induction items as [| item rest IH]; intros acc; simpl; [lia |].
  rewrite IH. rewrite (IH (match _ with Some _ => _ | None => _ end)).
  destruct (find_product ps (CartItem.product_id item)); lia.
Qed.

(** The total sent with the header is the total of the rows sent after
    it. *)
Lemma totalAmount_rows (o : Order.t) (items : list CartItem.t)
  (rows : list OrderItem.t) :
  orderItems o ps items = Returned rows ->
  totalAmount ps items = lines_total rows.
Proof.
  revert rows.
  induction items as [| item rest IH]; simpl; intros rows H.
  - inversion H; reflexivity.
  - destruct (find_product ps (CartItem.product_id item)) as [p |] eqn:F;
      [| discriminate].
    destruct (orderItems o ps rest) as [rows' | m]; [| discriminate].
    inversion H; subst. unfold totalAmount; simpl.
    rewrite F, totalAmount_from, (IH rows' eq_refl). simpl. lia.
Qed.

End Validation.

(** The products read for a request are found in the read exactly as they
    are in the catalog. *)
Lemma find_select (s : Store) (ids : list string) (pid : string) :
  In pid ids ->
  find_product (select_products ids s) pid = find_product (products s) pid.
Proof.
  intros Hin. unfold find_product, select_products.
  induction (products s) as [| p rest IH]; simpl; [reflexivity |].
  destruct (String.eqb (Product.id p) pid) eqn:E.
  - apply String.eqb_eq in E.
    assert (K : existsb (String.eqb (Product.id p)) ids = true).
    { apply existsb_exists. exists pid. split; [exact Hin |].
      apply String.eqb_eq; exact E. }
    rewrite K. simpl. apply String.eqb_eq in E. rewrite E. reflexivity.
  - destruct (existsb (String.eqb (Product.id p)) ids); simpl;
      [rewrite E |]; exact IH.
Qed.

Lemma passes_select (s : Store) (items : list CartItem.t)
  (item : CartItem.t) :
  In item items ->
  passes (select_products (map CartItem.product_id items) s) item <->
  passes (products s) item.
Proof.
  intros Hin. unfold passes.
  rewrite find_select by (apply in_map; exact Hin). tauto.
Qed.

(** ** The paths of the handler *)

Lemma orderItems_returns (ps : list Product.t) (o : Order.t)
  (items : list CartItem.t) :
  Forall (passes ps) items -> exists rows, orderItems o ps items = Returned rows.
Proof.
  induction 1 as [| item rest (p & F & _) _ (rows & IH)]; simpl.
  - eexists; reflexivity.
  - rewrite F, IH. eexists; reflexivity.
Qed.

(** The five ways through the handler, for a request with at least one
    item: the read fails; the first loop rejects; the header is refused;
    the rows are refused; the order is committed. *)
Lemma create_order_paths (user : string) (items : list CartItem.t)
  (fails : list bool) (s s' : Store) (r : Response) (tr : list Event) :
  items <> [] ->
  create_order user (BodyJson (ItemsArray items)) fails s = (r, s', tr) ->
  let ids := map CartItem.product_id items in
  let ps := select_products ids s in
  let o := new_order user items s in
  (fst (next_outcome fails) = true /\
   r = error_response 500 "Failed to fetch products" /\
   s' = s /\ tr = [EvSelect ids false])
  \/
  (fst (next_outcome fails) = false /\
   validate ps items = Some r /\ s' = s /\ tr = [EvSelect ids true])
  \/
  (fst (next_outcome fails) = false /\
   validate ps items = None /\
   r = error_response 500 "Failed to create order" /\
   s' = s /\
   tr = [EvSelect ids true; EvInsertOrder (Order.total_amount o) None])
  \/
  (fst (next_outcome fails) = false /\
   validate ps items = None /\
   r = error_response 500 "Failed to create order items" /\
   products s' = products s /\
   exists rows del,
     orderItems o ps items = Returned rows /\
     tr = [EvSelect ids true; EvInsertOrder (Order.total_amount o) (Some o);
           EvInsertOrderItems rows false; EvDeleteOrder (Order.id o) del])
  \/
  (fst (next_outcome fails) = false /\
   validate ps items = None /\
   r = success_response o /\
   orders s' = (orders s ++ [o])%list /\
   next_order_id s' = S (next_order_id s) /\
   exists rows tr',
     orderItems o ps items = Returned rows /\
     order_items s' = (order_items s ++ rows)%list /\
     tr = EvSelect ids true :: EvInsertOrder (Order.total_amount o) (Some o)
          :: EvInsertOrderItems rows true :: tr' /\
     forallb is_stock_update tr' = true).
Proof.
  intros Hne H ids ps o.
  destruct items as [| item0 items0]; [congruence |].
  unfold create_order in H.
  cbn [place_order run] in H.
  fold ids in H.
  destruct (fst (next_outcome fails)) eqn:F1.
  - left. cbn [call_select run negb] in H. inversion H; subst. auto.
  - right. unfold call_select in H. fold ps in H.
    destruct (validate ps (item0 :: items0)) as [resp |] eqn:V.
    + left. cbn [run negb] in H. inversion H; subst. auto.
    + right. cbn [run] in H.
      set (fails1 := snd (next_outcome fails)) in *.
      unfold call_insert_order in H.
      destruct (fst (next_outcome fails1)
                || negb (order_row_ok (totalAmount ps (item0 :: items0))
                           "pending")) eqn:F2.
      * left. cbn [run] in H. inversion H; subst. auto.
      * right. unfold insert_order in H.
        change (Order.mk (next_order_id s) user
                  (totalAmount ps (item0 :: items0)) "pending") with o in H.
        destruct (orderItems_returns ps o (item0 :: items0)
                    (validate_none ps _ V)) as (rows & Hrows).
        rewrite Hrows in H. cbn [run] in H.
        set (fails2 := snd (next_outcome fails1)) in *.
        unfold call_insert_order_items in H.
        match type of H with
        | context [if ?c then (true, ?s1) else _] =>
            destruct c eqn:F3; set (s_hdr := s1) in *
        end.
        -- left. cbn [run] in H. unfold call_delete_order in H.
           destruct (fst (next_outcome (snd (next_outcome fails2)))) eqn:F4;
             cbn [run negb] in H; inversion H; subst;
             (repeat split; auto; eexists rows, _; split;
              [exact Hrows | reflexivity]).
        -- right.
           destruct (run_update_stocks ps (item0 :: items0)
                       (success_response o) (snd (next_outcome fails2))
                       (insert_order_items rows s_hdr))
             as (s2 & tr2 & Hr & Ho & Hi & Hn & Htr).
           rewrite Hr in H. inversion H; subst.
           repeat split; auto.
           exists rows, tr2. repeat split; auto.
Qed.

(** ** Requests that are turned down before any write *)

Lemma passes_not_absent (ps : list Product.t) (item : CartItem.t) :
  passes ps item -> absent ps item -> False.
Proof. intros (p & F & _) A. unfold absent in A. congruence. Qed.

Lemma passes_not_short (ps : list Product.t) (item : CartItem.t) :
  passes ps item -> short ps item -> False.
Proof.
  intros (p & F & L) (p' & F' & L').
  rewrite F in F'. inversion F'; subst. lia.
Qed.

(** A request with an entry that cannot pass the first loop never gets
    past it: the store is left as it was, nothing is written, and the
    response is the one of the failed read or of the loop. *)
Lemma rejected_before_commit (user : string) (items : list CartItem.t)
  (fails : list bool) (s s' : Store) (r : Response) (tr : list Event) :
  (exists item, In item items /\ ~ passes (products s) item) ->
  create_order user (BodyJson (ItemsArray items)) fails s = (r, s', tr) ->
  s' = s /\ no_writes tr = true /\
  (fst (next_outcome fails) = true /\
   r = error_response 500 "Failed to fetch products" \/
   fst (next_outcome fails) = false /\
   validate (select_products (map CartItem.product_id items) s) items
   = Some r).
Proof.
  intros (item & Hin & Hbad) H.
  assert (Hne : items <> []) by (intros ->; inversion Hin).
  assert (V : validate (select_products (map CartItem.product_id items) s)
                items <> None).
  { intros V. apply validate_none in V.
    rewrite Forall_forall in V. apply Hbad.
    apply (passes_select s items item Hin). apply V; exact Hin. }
  destruct (create_order_paths user items fails s s' r tr Hne H)
    as [(F & -> & -> & ->)
       | [(F & V' & -> & ->)
         | [(_ & V' & _) | [(_ & V' & _) | (_ & V' & _)]]]];
    try contradiction; auto.
Qed.

Lemma status_not_200_of_rejection (ps : list Product.t)
  (items : list CartItem.t) (r : Response) :
  r = error_response 500 "Failed to fetch products" \/
  validate ps items = Some r ->
  status r <> 200.
Proof.
  intros [-> | V]; [simpl; lia |].
  destruct (validate_some ps items r V) as (msg & [-> | ->]); simpl; lia.
Qed.

(** C8: the handler departs from the claim.  An empty item list, and a
    value of [items] that the test at line 58 takes for one, are answered
    400 "Cart is empty" without any call to the store; but a value of
    [items] that is not an array and passes that test is answered 500 by
    the [catch], with the message of the TypeError, and so is a body that
    cannot be read; neither calls the store. *)
Theorem empty_or_malformed_items (user : string) (fails : list bool)
  (s : Store) :
  create_order user (BodyJson (ItemsArray [])) fails s
  = (error_response 400 "Cart is empty", s, []) /\
  create_order user (BodyJson ItemsAbsent) fails s
  = (error_response 400 "Cart is empty", s, []) /\
  create_order user (BodyJson ItemsNotArray) fails s
  = (error_response 500 "items.map is not a function", s, []) /\
  forall m, exists msg,
    create_order user (BodyRejected m) fails s
    = (error_response 500 msg, s, []).
Proof.
  repeat split. intros m. eexists. reflexivity.
Qed.

(** An item list that is not an array is not answered 400. *)
Lemma malformed_items_not_400 :
  status (fst (fst (create_order "u" (BodyJson ItemsNotArray) [] store0)))
  <> 400.
Proof. vm_compute. intros H. discriminate H. Qed.

(** C6, as the code has it: a request with an entry that asks for more
    than the stock of its product fails, and the store is left as it was
    (no order, no line item, no stock change, no write attempted).  When
    the read succeeds and that entry is the first one that does not pass,
    the response is 400 with the name of the product and its stock; the
    requested quantity is not part of it. *)
Theorem insufficient_stock_rejected (user : string)
  (items : list CartItem.t) (fails : list bool) (s s' : Store)
  (r : Response) (tr : list Event) :
  (exists item, In item items /\ short (products s) item) ->
  create_order user (BodyJson (ItemsArray items)) fails s = (r, s', tr) ->
  s' = s /\ no_writes tr = true /\ status r <> 200 /\
  forall pre item post p,
    items = (pre ++ item :: post)%list ->
    Forall (passes (products s)) pre ->
    find_product (products s) (CartItem.product_id item) = Some p ->
    Product.stock p < CartItem.quantity item ->
    fst (next_outcome fails) = false ->
    r = error_response 400
          ("Insufficient stock for " ++ Product.name p ++ ". Available: "
           ++ string_of_Z (Product.stock p)).
Proof.
  intros (bad & Hin & Hshort) H.
  destruct (rejected_before_commit user items fails s s' r tr) as (E & W & R);
    [| exact H |].
  { exists bad. split; [exact Hin |].
    intros P. exact (passes_not_short _ _ P Hshort). }
  repeat split; auto.
  - apply (status_not_200_of_rejection
             (select_products (map CartItem.product_id items) s) items).
    tauto.
  - intros pre item post p -> Hpre F L F1.
    destruct R as [(F1' & _) | (_ & V)]; [congruence |].
    rewrite validate_skip in V.
    + simpl in V. rewrite find_select in V
        by (rewrite map_app; apply in_or_app; right; left; reflexivity).
      rewrite F in V. apply Z.ltb_lt in L. rewrite L in V.
      inversion V; reflexivity.
    + rewrite Forall_forall in *. intros x Hx.
      apply passes_select; [apply in_or_app; auto | auto].
Qed.

Lemma insufficient_stock_rejected_witness :
  (exists item, In item [CartItem.mk "B" 5] /\ short (products store0) item)
  /\
  create_order "u" (cart [("B", 5)]) [] store0
  = (error_response 400 "Insufficient stock for Gadget. Available: 2",
     store0, [EvSelect ["B"] true])
  /\
  (store0 = store0 /\
   no_writes [EvSelect ["B"] true] = true /\
   status (error_response 400 "Insufficient stock for Gadget. Available: 2")
   <> 200 /\
   forall pre item post p,
     [CartItem.mk "B" 5] = (pre ++ item :: post)%list ->
     Forall (passes (products store0)) pre ->
     find_product (products store0) (CartItem.product_id item) = Some p ->
     Product.stock p < CartItem.quantity item ->
     fst (next_outcome []) = false ->
     error_response 400 "Insufficient stock for Gadget. Available: 2"
     = error_response 400
         ("Insufficient stock for " ++ Product.name p ++ ". Available: "
          ++ string_of_Z (Product.stock p))).
Proof.
  assert (H1 : exists item,
             In item [CartItem.mk "B" 5] /\ short (products store0) item).
  { exists (CartItem.mk "B" 5). split; [left; reflexivity |].
    exists product_B. split; [reflexivity | simpl; lia]. }
  assert (H2 : create_order "u" (cart [("B", 5)]) [] store0
               = (error_response 400
                    "Insufficient stock for Gadget. Available: 2",
                  store0, [EvSelect ["B"] true])) by reflexivity.
  split; [exact H1 |]. split; [exact H2 |].
  exact (insufficient_stock_rejected "u" [CartItem.mk "B" 5] [] store0 store0
           _ _ H1 H2).
Defined.

(** C6, as the claim states it, fails: the error of a request for 5 units
    of a product with 2 in stock does not name the requested quantity; it
    is the very response a request for 7 units gets.  And a request whose
    first entry names a product the catalog does not have is answered 404
    for that entry, although a later entry asks for more than the stock. *)
Lemma insufficient_stock_error_omits_quantity :
  (let r5 := fst (fst (create_order "u" (cart [("B", 5)]) [] store0)) in
   let r7 := fst (fst (create_order "u" (cart [("B", 7)]) [] store0)) in
   error_of r5 = "Insufficient stock for Gadget. Available: 2" /\
   mentions (string_of_Z 5) (error_of r5) = false /\
   r5 = r7)
  /\
  short (products store0) (CartItem.mk "B" 5) /\
  fst (fst (create_order "u" (cart [("Z", 1); ("B", 5)]) [] store0))
  = error_response 404 "Product Z not found".
Proof.
  split; [vm_compute; repeat split |].
  split; [| reflexivity].
  exists product_B. split; [reflexivity | simpl; lia].
Qed.

(** C7, as the code has it: a request with an entry whose product is not
    in the catalog fails, and the store is left as it was (no order, no
    line item, no stock change, no write attempted).  When the read
    succeeds and that entry is the first one that does not pass, the
    response is 404 and names the missing id. *)
Theorem missing_product_rejected (user : string)
  (items : list CartItem.t) (fails : list bool) (s s' : Store)
  (r : Response) (tr : list Event) :
  (exists item, In item items /\ absent (products s) item) ->
  create_order user (BodyJson (ItemsArray items)) fails s = (r, s', tr) ->
  s' = s /\ no_writes tr = true /\ status r <> 200 /\
  forall pre item post,
    items = (pre ++ item :: post)%list ->
    Forall (passes (products s)) pre ->
    absent (products s) item ->
    fst (next_outcome fails) = false ->
    r = error_response 404
          ("Product " ++ CartItem.product_id item ++ " not found").
Proof.
  intros (bad & Hin & Habs) H.
  destruct (rejected_before_commit user items fails s s' r tr) as (E & W & R);
    [| exact H |].
  { exists bad. split; [exact Hin |].
    intros P. exact (passes_not_absent _ _ P Habs). }
  repeat split; auto.
  - apply (status_not_200_of_rejection
             (select_products (map CartItem.product_id items) s) items).
    tauto.
  - intros pre item post -> Hpre A F1.
    destruct R as [(F1' & _) | (_ & V)]; [congruence |].
    rewrite validate_skip in V.
    + simpl in V. rewrite find_select in V
        by (rewrite map_app; apply in_or_app; right; left; reflexivity).
      unfold absent in A. rewrite A in V. inversion V; reflexivity.
    + rewrite Forall_forall in *. intros x Hx.
      apply passes_select; [apply in_or_app; auto | auto].
Qed.

Lemma missing_product_rejected_witness :
  (exists item,
      In item [CartItem.mk "A" 1; CartItem.mk "Z" 1] /\
      absent (products store0) item)
  /\
  create_order "u" (cart [("A", 1); ("Z", 1)]) [] store0
  = (error_response 404 "Product Z not found", store0,
     [EvSelect ["A"; "Z"] true])
  /\
  (store0 = store0 /\
   no_writes [EvSelect ["A"; "Z"] true] = true /\
   status (error_response 404 "Product Z not found") <> 200 /\
   forall pre item post,
     [CartItem.mk "A" 1; CartItem.mk "Z" 1] = (pre ++ item :: post)%list ->
     Forall (passes (products store0)) pre ->
     absent (products store0) item ->
     fst (next_outcome []) = false ->
     error_response 404 "Product Z not found"
     = error_response 404
         ("Product " ++ CartItem.product_id item ++ " not found")).
Proof.
  assert (H1 : exists item,
             In item [CartItem.mk "A" 1; CartItem.mk "Z" 1] /\
             absent (products store0) item).
  { exists (CartItem.mk "Z" 1). split; [right; left; reflexivity |].
    reflexivity. }
  assert (H2 : create_order "u" (cart [("A", 1); ("Z", 1)]) [] store0
               = (error_response 404 "Product Z not found", store0,
                  [EvSelect ["A"; "Z"] true])) by reflexivity.
  split; [exact H1 |]. split; [exact H2 |].
  exact (missing_product_rejected "u" [CartItem.mk "A" 1; CartItem.mk "Z" 1]
           [] store0 store0 _ _ H1 H2).
Defined.

(** C7, as the claim states it, fails: product "Z" is not in the catalog,
    yet the request is answered 400 for the stock of "A", the entry before
    it, and not 404. *)
Lemma missing_product_after_short_entry :
  absent (products store0) (CartItem.mk "Z" 1) /\
  fst (fst (create_order "u" (cart [("A", 100); ("Z", 1)]) [] store0))
  = error_response 400 "Insufficient stock for Widget. Available: 5".
Proof. split; reflexivity. Qed.

(** ** Committed orders *)

(** What a 200 response tells about the run. *)
Lemma committed_inv (user : string) (b : Body) (fails : list bool)
  (s s' : Store) (o : Order.t) (tr : list Event) :
  create_order user b fails s = (success_response o, s', tr) ->
  exists items rows,
    b = BodyJson (ItemsArray items) /\
    o = new_order user items s /\
    orderItems o (select_products (map CartItem.product_id items) s) items
    = Returned rows /\
    orders s' = (orders s ++ [o])%list /\
    order_items s' = (order_items s ++ rows)%list.
Proof.
  intros H.
  destruct b as [m | [| items |]]; try (cbn in H; discriminate H).
  destruct items as [| item0 items0]; [cbn in H; discriminate H |].
  destruct (create_order_paths user (item0 :: items0) fails s s' _ tr
              ltac:(intros K; discriminate K) H)
    as [(_ & E & _) | [(_ & V & _) | [(_ & _ & E & _)
       | [(_ & _ & E & _) | (_ & _ & E & Ho & _ & rows & tr' & R & Hi & _)]]]];
    try discriminate E.
  - destruct (validate_some _ _ _ V) as (msg & [E | E]); discriminate E.
  - inversion E as [E'].
    exists (item0 :: items0), rows. subst o. auto.
Qed.

Lemma line_items_of_committed (s s' : Store) (oid : nat)
  (rows : list OrderItem.t) :
  store_wf s ->
  oid = next_order_id s ->
  order_items s' = (order_items s ++ rows)%list ->
  Forall (fun row => OrderItem.order_id row = oid) rows ->
  line_items_of oid s' = rows.
Proof.
  intros Hwf -> Hi Hrows. unfold line_items_of. rewrite Hi, filter_app.
  clear Hi.
  replace (filter _ (order_items s)) with (@nil OrderItem.t).
  - simpl. induction Hrows as [| row rows E _ IH]; simpl; [reflexivity |].
    rewrite E, Nat.eqb_refl, IH. reflexivity.
  - symmetry. destruct Hwf as [_ Hwf].
    induction Hwf as [| row rest L _ IH]; simpl; [reflexivity |].
    destruct (Nat.eqb_spec (OrderItem.order_id row) (next_order_id s));
      [lia | exact IH].
Qed.

Lemma Forall2_with_In {A B : Type} (R : A -> B -> Prop) (l : list A)
  (l' : list B) :
  Forall2 R l l' -> Forall2 (fun a b => In a l /\ R a b) l l'.
Proof.
  induction 1 as [| a b l l' Hab _ IH]; constructor.
  - split; [left; reflexivity | exact Hab].
  - revert IH. apply Forall2_impl. intros x y (Hx & Hxy).
    split; [right; exact Hx | exact Hxy].
Qed.

Lemma Forall2_right {A B : Type} (P : B -> Prop) (R : A -> B -> Prop)
  (l : list A) (l' : list B) :
  (forall a b, R a b -> P b) -> Forall2 R l l' -> Forall P l'.
Proof. intros K; induction 1; constructor; eauto. Qed.

(** With the total summed exactly, as [totalAmount] does: the
    [total_amount] stored with a committed order is the sum of
    [price * quantity] over the line items stored for it, and the price of
    each line item is the price the catalog had for its product when the
    request was validated.  The runtime sums in doubles
    ([totalAmount_binary64]), for which [total_amount_drifts] gives an
    order whose stored total is a cent off. *)
Theorem total_amount_conservation (user : string) (b : Body)
  (fails : list bool) (s s' : Store) (o : Order.t) (tr : list Event) :
  store_wf s ->
  create_order user b fails s = (success_response o, s', tr) ->
  In o (orders s') /\
  Order.total_amount o = lines_total (line_items_of (Order.id o) s') /\
  Forall
    (fun li =>
       exists p,
         find_product (products s) (OrderItem.product_id li) = Some p /\
         OrderItem.price li = Product.price p)
    (line_items_of (Order.id o) s').
Proof.
  intros Hwf H.
  destruct (committed_inv user b fails s s' o tr H)
    as (items & rows & -> & Eo & R & Ho & Hi).
  pose proof (orderItems_rows _ o items rows R) as F2.
  assert (L : line_items_of (Order.id o) s' = rows).
  { apply (line_items_of_committed s); auto.
    - rewrite Eo; reflexivity.
    - apply (Forall2_right _ _ _ _ (fun a b K => proj1 K) F2). }
  rewrite L. split; [| split].
  - rewrite Ho. apply in_or_app. right. left. reflexivity.
  - rewrite <- (totalAmount_rows _ o items rows R).
    rewrite Eo. reflexivity.
  - apply Forall2_with_In in F2.
    refine (Forall2_right _ _ _ _ _ F2).
    intros item row (Hin & _ & P & _ & p & F & Q).
    exists p. split; [| exact Q].
    rewrite P, <- F. symmetry. apply find_select. apply in_map. exact Hin.
Qed.

Lemma store0_wf : store_wf store0.
Proof. split; constructor. Qed.

Lemma total_amount_conservation_witness :
  store_wf store0 /\
  create_order "u" (cart [("A", 3); ("B", 1)]) [] store0
  = (success_response (order_0 5000),
     mkStore
       [set_stock 2 product_A; set_stock 1 product_B; product_C]
       [order_0 5000]
       [OrderItem.mk 0 "A" 3 1000; OrderItem.mk 0 "B" 1 2000]
       1,
     [EvSelect ["A"; "B"] true;
      EvInsertOrder 5000 (Some (order_0 5000));
      EvInsertOrderItems
        [OrderItem.mk 0 "A" 3 1000; OrderItem.mk 0 "B" 1 2000] true;
      EvUpdateStock "A" 2 true;
      EvUpdateStock "B" 1 true])
  /\
  (In (order_0 5000) [order_0 5000] /\
   5000 = lines_total [OrderItem.mk 0 "A" 3 1000; OrderItem.mk 0 "B" 1 2000]
   /\
   Forall
     (fun li =>
        exists p,
          find_product (products store0) (OrderItem.product_id li) = Some p /\
          OrderItem.price li = Product.price p)
     [OrderItem.mk 0 "A" 3 1000; OrderItem.mk 0 "B" 1 2000]).
Proof.
  split; [exact store0_wf |]. split; [reflexivity |].
  exact (total_amount_conservation "u" (cart [("A", 3); ("B", 1)]) [] store0
           _ _ _ store0_wf eq_refl).
Defined.

(** C9: the line items stored for a committed order are the entries of the
    request, one line item per entry and in the order of the request, each
    with the product id and the quantity of its entry; entries that name
    the same product stay apart. *)
Theorem one_line_item_per_entry (user : string) (items : list CartItem.t)
  (fails : list bool) (s s' : Store) (o : Order.t) (tr : list Event) :
  store_wf s ->
  create_order user (BodyJson (ItemsArray items)) fails s
  = (success_response o, s', tr) ->
  map (fun li => (OrderItem.product_id li, OrderItem.quantity li))
    (line_items_of (Order.id o) s')
  = map (fun item => (CartItem.product_id item, CartItem.quantity item))
      items.
Proof.
  intros Hwf H.
  destruct (committed_inv user _ fails s s' o tr H)
    as (items' & rows & Eb & Eo & R & Ho & Hi).
  inversion Eb; subst items'; clear Eb.
  pose proof (orderItems_rows _ o items rows R) as F2.
  rewrite (line_items_of_committed s s' (Order.id o) rows); auto.
  - clear - F2.
    induction F2 as [| item row its rws (_ & P & Q & _) _ IH]; simpl;
      [reflexivity |].
    rewrite P, Q, IH. reflexivity.
  - rewrite Eo; reflexivity.
  - apply (Forall2_right _ _ _ _ (fun a b K => proj1 K) F2).
Qed.

Lemma one_line_item_per_entry_witness :
  store_wf store0 /\
  create_order "u" (cart [("A", 2); ("A", 3)]) [] store0
  = (success_response (order_0 5000),
     mkStore
       [set_stock 2 product_A; product_B; product_C]
       [order_0 5000]
       [OrderItem.mk 0 "A" 2 1000; OrderItem.mk 0 "A" 3 1000]
       1,
     [EvSelect ["A"; "A"] true;
      EvInsertOrder 5000 (Some (order_0 5000));
      EvInsertOrderItems
        [OrderItem.mk 0 "A" 2 1000; OrderItem.mk 0 "A" 3 1000] true;
      EvUpdateStock "A" 3 true;
      EvUpdateStock "A" 2 true])
  /\
  [("A", 2); ("A", 3)]
  = map (fun item => (CartItem.product_id item, CartItem.quantity item))
      [CartItem.mk "A" 2; CartItem.mk "A" 3].
Proof.
  split; [exact store0_wf |]. split; [reflexivity |].
  exact (one_line_item_per_entry "u" [CartItem.mk "A" 2; CartItem.mk "A" 3]
           [] store0 _ _ _ store0_wf eq_refl).
Defined.

(** C10: once the header and the line items are inserted the response has
    status 200 and its body is the order that the store returned for the
    insert of the header, whatever the store answers to the stock updates
    that follow: their answers are not looked at. *)
Theorem stock_update_errors_ignored (user : string) (b : Body)
  (fails : list bool) (s s' : Store) (r : Response) (tr : list Event)
  (rows : list OrderItem.t) :
  create_order user b fails s = (r, s', tr) ->
  In (EvInsertOrderItems rows true) tr ->
  status r = 200 /\
  exists o,
    body r = SuccessBody o /\
    In (EvInsertOrder (Order.total_amount o) (Some o)) tr /\
    In o (orders s').
Proof.
  intros H Hin.
  destruct b as [m | [| items |]];
    try (cbn in H; inversion H; subst; contradiction).
  destruct items as [| item0 items0];
    [cbn in H; inversion H; subst; contradiction |].
  destruct (create_order_paths user (item0 :: items0) fails s s' r tr
              ltac:(intros K; discriminate K) H)
    as [(_ & _ & _ & ->) | [(_ & _ & _ & ->) | [(_ & _ & _ & _ & ->)
       | [(_ & _ & _ & _ & rs & del & _ & ->)
         | (_ & _ & -> & Ho & _ & rs & tr' & _ & _ & -> & _)]]]].
  - destruct Hin as [K | []]; discriminate K.
  - destruct Hin as [K | []]; discriminate K.
  - destruct Hin as [K | [K | []]]; discriminate K.
  - destruct Hin as [K | [K | [K | [K | []]]]]; discriminate K.
  - split; [reflexivity |].
    eexists. split; [reflexivity |]. split.
    + right. left. reflexivity.
    + rewrite Ho. apply in_or_app. right. left. reflexivity.
Qed.

Lemma stock_update_errors_ignored_witness :
  create_order "u" (cart [("A", 3)]) [false; false; false; true] store0
  = (mkResponse 200 (SuccessBody (order_0 3000)),
     mkStore (products store0) [order_0 3000] [OrderItem.mk 0 "A" 3 1000] 1,
     [EvSelect ["A"] true;
      EvInsertOrder 3000 (Some (order_0 3000));
      EvInsertOrderItems [OrderItem.mk 0 "A" 3 1000] true;
      EvUpdateStock "A" 2 false])
  /\
  In (EvInsertOrderItems [OrderItem.mk 0 "A" 3 1000] true)
    [EvSelect ["A"] true;
     EvInsertOrder 3000 (Some (order_0 3000));
     EvInsertOrderItems [OrderItem.mk 0 "A" 3 1000] true;
     EvUpdateStock "A" 2 false]
  /\
  (status (mkResponse 200 (SuccessBody (order_0 3000))) = 200 /\
   exists o,
     body (mkResponse 200 (SuccessBody (order_0 3000))) = SuccessBody o /\
     In (EvInsertOrder (Order.total_amount o) (Some o))
       [EvSelect ["A"] true;
        EvInsertOrder 3000 (Some (order_0 3000));
        EvInsertOrderItems [OrderItem.mk 0 "A" 3 1000] true;
        EvUpdateStock "A" 2 false] /\
     In o [order_0 3000]).
Proof.
  assert (Hin : In (EvInsertOrderItems [OrderItem.mk 0 "A" 3 1000] true)
                  [EvSelect ["A"] true;
                   EvInsertOrder 3000 (Some (order_0 3000));
                   EvInsertOrderItems [OrderItem.mk 0 "A" 3 1000] true;
                   EvUpdateStock "A" 2 false])
    by (right; right; left; reflexivity).
  split; [reflexivity |]. split; [exact Hin |].
  exact (stock_update_errors_ignored "u" (cart [("A", 3)])
           [false; false; false; true] store0 _ _ _ _ eq_refl Hin).
Defined.

(** The scenario of the specification: product A has stock 5 and price
    10.00; a request for 3 units is answered 200 with a total of 30.00, and
    the stock becomes 2. *)
Example scenario_A3 :
  let '(r, s', _) := create_order "u" (cart [("A", 3)]) [] store0 in
  r = success_response (order_0 3000) /\ stock_of "A" s' = Some 2.
Proof. split; reflexivity. Qed.

(** ** Where the handler departs from the specification *)

(** C1: atomicity does not hold.  The store takes the header and the line
    item and fails the stock update: the response is 200, the order and its
    line item are stored, and the stock of A is what it was.  The store
    takes the header, fails the line items and fails the delete that
    should undo the header: the response is 500 and the header stays,
    without line items. *)
Theorem atomicity_broken :
  (let '(r, s', _) :=
     create_order "u" (cart [("A", 3)]) [false; false; false; true] store0 in
   status r = 200 /\
   order_exists 0 s' = true /\
   line_items_of 0 s' = [OrderItem.mk 0 "A" 3 1000] /\
   stock_of "A" s' = stock_of "A" store0)
  /\
  (let '(r, s', _) :=
     create_order "u" (cart [("A", 3)]) [false; false; true; true] store0 in
   status r = 500 /\
   order_exists 0 s' = true /\
   line_items_of 0 s' = []).
Proof. split; repeat split; reflexivity. Qed.

(** C2: two requests for the last unit of product C.  Both read the catalog
    before either writes; both are answered 200, two orders with one unit
    of C each are stored, and the stock of C ends at 0. *)
Theorem last_unit_sold_twice :
  stock_of "C" store0 = Some 1 /\
  let '(r1, r2, s') :=
    create_order2 [true; false] "u1" (cart [("C", 1)]) "u2" (cart [("C", 1)])
      store0 in
  status r1 = 200 /\ status r2 = 200 /\
  map OrderItem.quantity (line_items_of 0 s') = [1] /\
  map OrderItem.quantity (line_items_of 1 s') = [1] /\
  stock_of "C" s' = Some 0.
Proof. split; [reflexivity |]. repeat split; reflexivity. Qed.

(** When the second request starts after the first has finished, it is
    turned down for the stock. *)
Example last_unit_one_after_the_other :
  let '(r1, r2, s') :=
    create_order2 [] "u1" (cart [("C", 1)]) "u2" (cart [("C", 1)]) store0 in
  status r1 = 200 /\
  r2 = error_response 400 "Insufficient stock for Last one. Available: 0" /\
  stock_of "C" s' = Some 0.
Proof. repeat split; reflexivity. Qed.

(** C4: two entries for product A, 2 units and 3 units, with 5 in stock.
    The request is answered 200 and both line items are stored, but the
    stock ends at 2, the stock read minus the last entry alone, not at
    5 - (2 + 3).  Two entries of 3 units pass the stock check one by one,
    although together they ask for more than the 5 in stock. *)
Theorem duplicate_entries_last_update_wins :
  (let '(r, s', _) :=
     create_order "u" (cart [("A", 2); ("A", 3)]) [] store0 in
   status r = 200 /\
   map OrderItem.quantity (line_items_of 0 s') = [2; 3] /\
   stock_of "A" store0 = Some 5 /\
   stock_of "A" s' = Some 2 /\
   stock_of "A" s' <> Some (5 - (2 + 3)))
  /\
  (let '(r, s', _) :=
     create_order "u" (cart [("A", 3); ("A", 3)]) [] store0 in
   status r = 200 /\
   map OrderItem.quantity (line_items_of 0 s') = [3; 3] /\
   stock_of "A" s' = Some 2).
Proof.
  split; repeat split; try reflexivity.
  vm_compute. intros H. discriminate H.
Qed.

(** C5: a quantity of 0 is not turned down by the handler.  The entry
    passes the first loop, the header is inserted, the store refuses the
    line item (its quantity must be positive), the header is deleted and
    the response is 500.  A quantity of -2 passes the first loop as well;
    the store refuses the header for its negative total and the response is
    500. *)
Theorem non_positive_quantity_not_validated :
  validate (products store0) [CartItem.mk "A" 0] = None /\
  create_order "u" (cart [("A", 0)]) [] store0
  = (error_response 500 "Failed to create order items",
     mkStore (products store0) [] [] 1,
     [EvSelect ["A"] true;
      EvInsertOrder 0 (Some (order_0 0));
      EvInsertOrderItems [OrderItem.mk 0 "A" 0 1000] false;
      EvDeleteOrder 0 true])
  /\
  validate (products store0) [CartItem.mk "A" (-2)] = None /\
  create_order "u" (cart [("A", -2)]) [] store0
  = (error_response 500 "Failed to create order", store0,
     [EvSelect ["A"] true; EvInsertOrder (-2000) None]).
Proof. repeat split; reflexivity. Qed.

(** ** Beyond the claims: the trace is a log of the store *)

Lemma replay_cons (e : Event) (tr : list Event) (s : Store) :
  replay (e :: tr) s = replay tr (apply_event e s).
Proof. reflexivity. Qed.

Lemma replay_app (tr1 tr2 : list Event) (s : Store) :
  replay (tr1 ++ tr2) s = replay tr2 (replay tr1 s).
Proof. unfold replay. apply fold_left_app. Qed.

(** Replaying the calls that went through gives the store of the end of
    the run. *)
Lemma run_replay {A : Type} (p : Prog A) :
  forall (fails : list bool) (s : Store),
  snd (fst (run p fails s)) = replay (snd (run p fails s)) s.
Proof.
  induction p as [a | m | ids k IH | u total st k IH | rows k IH
                 | oid k IH | pid n k IH];
    intros fails s; cbn [run]; try reflexivity.
  - specialize (IH (call_select (fst (next_outcome fails)) ids s)
                  (snd (next_outcome fails)) s).
    destruct (run (k _) _ s) as [[out s'] tr]. exact IH.
  - unfold call_insert_order, insert_order.
    destruct (fst (next_outcome fails) || negb (order_row_ok total st)).
    + specialize (IH None (snd (next_outcome fails)) s).
      destruct (run (k None) _ s) as [[out s'] tr]. exact IH.
    + match goal with
      | |- context [run (k (Some ?o)) ?f ?s1] =>
          specialize (IH (Some o) f s1);
          destruct (run (k (Some o)) f s1) as [[out s'] tr]
      end.
      exact IH.
  - unfold call_insert_order_items.
    destruct (fst (next_outcome fails)
              || negb (forallb (order_item_row_ok s) rows)).
    + specialize (IH true (snd (next_outcome fails)) s).
      destruct (run (k true) _ s) as [[out s'] tr]. exact IH.
    + specialize (IH false (snd (next_outcome fails))
                    (insert_order_items rows s)).
      destruct (run (k false) _ _) as [[out s'] tr]. exact IH.
  - unfold call_delete_order.
    destruct (fst (next_outcome fails)).
    + specialize (IH true (snd (next_outcome fails)) s).
      destruct (run (k true) _ s) as [[out s'] tr]. exact IH.
    + specialize (IH false (snd (next_outcome fails)) (delete_order oid s)).
      destruct (run (k false) _ _) as [[out s'] tr]. exact IH.
  - unfold call_update_stock.
    destruct (fst (next_outcome fails) || negb (stock_ok n)).
    + specialize (IH true (snd (next_outcome fails)) s).
      destruct (run (k true) _ s) as [[out s'] tr]. exact IH.
    + specialize (IH false (snd (next_outcome fails)) (update_stock pid n s)).
      destruct (run (k false) _ _) as [[out s'] tr]. exact IH.
Qed.

Lemma create_order_replay (user : string) (b : Body) (fails : list bool)
  (s s' : Store) (r : Response) (tr : list Event) :
  create_order user b fails s = (r, s', tr) -> s' = replay tr s.
Proof.
  unfold create_order. intros H.
  pose proof (run_replay (place_order user b) fails s) as K.
  destruct (run (place_order user b) fails s) as [[out s1] tr1].
  inversion H; subst. exact K.
Qed.

(** What the schema lets through, read off the trace: the line items of a
    successful insert have positive quantities. *)
Lemma run_inserted_rows_positive {A : Type} (p : Prog A) :
  forall (fails : list bool) (s : Store) (rows : list OrderItem.t),
  In (EvInsertOrderItems rows true) (snd (run p fails s)) ->
  Forall (fun row => 0 < OrderItem.quantity row) rows.
Proof.
  induction p as [a | m | ids k IH | u total st k IH | rows0 k IH
                 | oid k IH | pid n k IH];
    intros fails s rows; cbn [run]; try (intros []).
  - specialize (IH (call_select (fst (next_outcome fails)) ids s)
                  (snd (next_outcome fails)) s rows).
    destruct (run (k _) _ s) as [[out s'] tr]. simpl in *.
    intros [K | K]; [discriminate K | auto].
  - destruct (call_insert_order _ u total st s) as [r s1].
    specialize (IH r (snd (next_outcome fails)) s1 rows).
    destruct (run (k r) _ s1) as [[out s'] tr]. simpl in *.
    intros [K | K]; [discriminate K | auto].
  - unfold call_insert_order_items.
    destruct (fst (next_outcome fails)
              || negb (forallb (order_item_row_ok s) rows0)) eqn:E.
    + specialize (IH true (snd (next_outcome fails)) s rows).
      destruct (run (k true) _ s) as [[out s'] tr]. simpl in *.
      intros [K | K]; [discriminate K | auto].
    + specialize (IH false (snd (next_outcome fails))
                    (insert_order_items rows0 s) rows).
      destruct (run (k false) _ _) as [[out s'] tr]. simpl in *.
      intros [K | K]; [| auto].
      inversion K; subst rows0.
      apply orb_false_elim in E. destruct E as [_ E].
      apply negb_false_iff in E. rewrite forallb_forall in E.
      apply Forall_forall. intros row Hrow.
      specialize (E row Hrow). unfold order_item_row_ok in E.
      repeat (apply andb_prop in E; destruct E as [E ?]).
      apply Z.ltb_lt; exact E.
  - destruct (call_delete_order _ oid s) as [err s1].
    specialize (IH err (snd (next_outcome fails)) s1 rows).
    destruct (run (k err) _ s1) as [[out s'] tr]. simpl in *.
    intros [K | K]; [discriminate K | auto].
  - destruct (call_update_stock _ pid n s) as [err s1].
    specialize (IH err (snd (next_outcome fails)) s1 rows).
    destruct (run (k err) _ s1) as [[out s'] tr]. simpl in *.
    intros [K | K]; [discriminate K | auto].
Qed.

(** ** Beyond the claims: the responses of the function *)

(** A response of the order part is the 200 of a committed order or an
    error with status 400, 404 or 500. *)
Lemma create_order_response (user : string) (b : Body) (fails : list bool)
  (s s' : Store) (r : Response) (tr : list Event) :
  create_order user b fails s = (r, s', tr) ->
  (exists o, r = success_response o /\ o = Order.mk (next_order_id s) user
                                              (Order.total_amount o) "pending"
             /\ In o (orders s')) \/
  (exists st msg, r = error_response st msg /\
                  (st = 400 \/ st = 404 \/ st = 500)).
Proof.
  intros H.
  destruct b as [m | [| items |]].
  - right. cbn in H. inversion H. eexists _, _. split; [reflexivity | auto].
  - right. cbn in H. inversion H. eexists _, _. split; [reflexivity | auto].
  - destruct items as [| item0 items0].
    + right. cbn in H. inversion H. eexists _, _. split; [reflexivity | auto].
    + destruct (create_order_paths user (item0 :: items0) fails s s' r tr
                  ltac:(intros K; discriminate K) H)
        as [(_ & -> & _) | [(_ & V & _) | [(_ & _ & -> & _)
           | [(_ & _ & -> & _) | (_ & _ & -> & Ho & _)]]]].
      * right. eexists _, _. split; [reflexivity | auto].
      * right. destruct (validate_some _ _ _ V) as (msg & [-> | ->]);
          eexists _, _; (split; [reflexivity | auto]).
      * right. eexists _, _. split; [reflexivity | auto].
      * right. eexists _, _. split; [reflexivity | auto].
      * left. eexists. split; [reflexivity |]. split; [reflexivity |].
        rewrite Ho. apply in_or_app. right. left. reflexivity.
  - right. cbn in H. inversion H. eexists _, _. split; [reflexivity | auto].
Qed.

(** X1: the function answers with status 200, 400, 401, 404 or 500, and
    with no other. *)
Theorem serve_status_codes (auth : string -> Outcome (option string))
  (req : Request.t) (fails : list bool) (s : Store) :
  In (reply_status (fst (fst (serve auth req fails s))))
    [200; 400; 401; 404; 500].
Proof.
  unfold serve.
  destruct (String.eqb (Request.method req) "OPTIONS"); [simpl; auto |].
  destruct (Request.authorization req) as [h |]; [| simpl; auto].
  destruct (String.eqb h ""); [simpl; auto |].
  destruct (auth (replace_first "Bearer " "" h)) as [[user |] | m];
    [| simpl; auto | simpl; auto 6].
  destruct (create_order user (Request.json req) fails s) as [[r s'] tr]
    eqn:H.
  destruct (create_order_response _ _ _ _ _ _ _ H)
    as [(o & -> & _) | (st & msg & -> & [-> | [-> | ->]])];
    simpl; auto 6.
Qed.

(** X2: the store is called only for a caller that [auth] has resolved:
    a preflight, a request without the header or with an empty one, and a
    request whose token is turned down make no call and leave the store as
    it is, whatever the body.  A request that does reach the store is
    handled as the order of the resolved user. *)
Theorem store_access_requires_user
  (auth : string -> Outcome (option string)) (req : Request.t)
  (fails : list bool) (s s' : Store) (reply : Reply) (tr : list Event) :
  serve auth req fails s = (reply, s', tr) ->
  tr <> [] \/ s' <> s ->
  Request.method req <> "OPTIONS" /\
  exists h user r,
    Request.authorization req = Some h /\ h <> "" /\
    auth (replace_first "Bearer " "" h) = Returned (Some user) /\
    reply = Answer r /\
    create_order user (Request.json req) fails s = (r, s', tr).
Proof.
  unfold serve. intros H Hacc.
  destruct (String.eqb (Request.method req) "OPTIONS") eqn:M.
  { inversion H; subst. destruct Hacc as [K | K]; congruence. }
  destruct (Request.authorization req) as [h |].
  2: { inversion H; subst. destruct Hacc as [K | K]; congruence. }
  destruct (String.eqb h "") eqn:E.
  { inversion H; subst. destruct Hacc as [K | K]; congruence. }
  destruct (auth (replace_first "Bearer " "" h)) as [[user |] | m] eqn:A.
  2, 3: inversion H; subst; destruct Hacc as [K | K]; congruence.
  destruct (create_order user (Request.json req) fails s) as [[r s1] tr1]
    eqn:C.
  inversion H; subst.
  split; [apply String.eqb_neq; exact M |].
  exists h, user, r. repeat split; auto.
  apply String.eqb_neq; exact E.
Qed.

Lemma store_access_requires_user_witness :
  serve auth_alice
    (Request.mk "POST" (Some "Bearer tok") (cart [("B", 5)])) [] store0
  = (Answer
       (error_response 400 "Insufficient stock for Gadget. Available: 2"),
     store0, [EvSelect ["B"] true])
  /\
  ([EvSelect ["B"] true] <> [] \/ store0 <> store0)
  /\
  ("POST" <> "OPTIONS" /\
   exists h user r,
     Some "Bearer tok" = Some h /\ h <> "" /\
     auth_alice (replace_first "Bearer " "" h) = Returned (Some user) /\
     Answer
       (error_response 400 "Insufficient stock for Gadget. Available: 2")
     = Answer r /\
     create_order user (cart [("B", 5)]) [] store0
     = (r, store0, [EvSelect ["B"] true])).
Proof.
  assert (H2 : [EvSelect ["B"] true] <> [] \/ store0 <> store0)
    by (left; intros K; discriminate K).
  split; [reflexivity |]. split; [exact H2 |].
  exact (store_access_requires_user auth_alice
           (Request.mk "POST" (Some "Bearer tok") (cart [("B", 5)]))
           [] store0 _ _ _ eq_refl H2).
Defined.

Lemma prefix_append (p s : string) : String.prefix p (p ++ s) = true.
Proof.
  induction p as [| c p IH]; simpl.
  - destruct s; reflexivity.
  - destruct (ascii_dec c c) as [_ | K]; [exact IH | contradiction].
Qed.

Lemma drop_append (p s : string) : drop (String.length p) (p ++ s) = s.
Proof.
  induction p as [| c p IH]; simpl; [destruct s; reflexivity | exact IH].
Qed.

(** A string that starts with the pattern loses that occurrence. *)
Lemma replace_first_prefix (pat rep s : string) :
  replace_first pat rep (pat ++ s) = rep ++ s.
Proof.
  assert (E : forall t, replace_first pat rep t
                        = if String.prefix pat t
                          then rep ++ drop (String.length pat) t
                          else match t with
                               | EmptyString => EmptyString
                               | String c t' =>
                                   String c (replace_first pat rep t')
                               end)
    by (intros [| c t]; reflexivity).
  rewrite E, prefix_append, drop_append. reflexivity.
Qed.

(** X3: a request that carries "Bearer " followed by a token that [auth]
    resolves to a user is handled as the order of that user: the token
    handed to [auth] is the header without its "Bearer " prefix. *)
Theorem bearer_request_is_order_of_user
  (auth : string -> Outcome (option string)) (m token user : string)
  (b : Body) (fails : list bool) (s : Store) :
  m <> "OPTIONS" ->
  auth token = Returned (Some user) ->
  serve auth (Request.mk m (Some ("Bearer " ++ token)) b) fails s
  = (let '(r, s', tr) := create_order user b fails s in (Answer r, s', tr)).
Proof.
  intros Hm Ha. unfold serve. cbn [Request.method Request.authorization
                                    Request.json].
  apply String.eqb_neq in Hm. rewrite Hm.
  rewrite replace_first_prefix.
  change (String.eqb ("Bearer " ++ token) "") with false.
  cbv iota. change ("" ++ token) with token. rewrite Ha. reflexivity.
Qed.

Lemma bearer_request_is_order_of_user_witness :
  "POST" <> "OPTIONS" /\
  auth_alice "tok" = Returned (Some "alice") /\
  serve auth_alice (Request.mk "POST" (Some ("Bearer " ++ "tok"))
                      (cart [("A", 3)])) [] store0
  = (let '(r, s', tr) := create_order "alice" (cart [("A", 3)]) [] store0 in
     (Answer r, s', tr)).
Proof.
  assert (H1 : "POST" <> "OPTIONS") by (intros K; discriminate K).
  split; [exact H1 |]. split; [reflexivity |].
  exact (bearer_request_is_order_of_user auth_alice "POST" "tok" "alice"
           (cart [("A", 3)]) [] store0 H1 eq_refl).
Defined.

(** X4: the order of a 200 response is stored, has status "pending", and
    belongs to the user that [auth] gave for the token of the request. *)
Theorem order_belongs_to_caller (auth : string -> Outcome (option string))
  (req : Request.t) (fails : list bool) (s s' : Store) (o : Order.t)
  (tr : list Event) :
  serve auth req fails s = (Answer (success_response o), s', tr) ->
  In o (orders s') /\
  Order.status o = "pending" /\
  exists h,
    Request.authorization req = Some h /\
    auth (replace_first "Bearer " "" h) = Returned (Some (Order.user_id o)).
Proof.
  unfold serve. intros H.
  destruct (String.eqb (Request.method req) "OPTIONS"); [discriminate H |].
  destruct (Request.authorization req) as [h |]; [| discriminate H].
  destruct (String.eqb h ""); [discriminate H |].
  destruct (auth (replace_first "Bearer " "" h)) as [[user |] | m] eqn:A;
    [| discriminate H |].
  - destruct (create_order user (Request.json req) fails s) as [[r s1] tr1]
      eqn:C.
    inversion H; subst.
    destruct (create_order_response _ _ _ _ _ _ _ C)
      as [(o' & E & Eo & Hin) | (st & msg & E & _)]; [| discriminate E].
    inversion E; subst o'. rewrite Eo. simpl.
    rewrite Eo in Hin. repeat split; auto.
    exists h. split; [reflexivity | exact A].
  - simpl in H. inversion H.
Qed.

Lemma order_belongs_to_caller_witness :
  serve auth_alice (Request.mk "POST" (Some "Bearer tok") (cart [("A", 3)]))
    [] store0
  = (Answer (success_response (Order.mk 0 "alice" 3000 "pending")),
     mkStore [set_stock 2 product_A; product_B; product_C]
       [Order.mk 0 "alice" 3000 "pending"]
       [OrderItem.mk 0 "A" 3 1000] 1,
     [EvSelect ["A"] true;
      EvInsertOrder 3000 (Some (Order.mk 0 "alice" 3000 "pending"));
      EvInsertOrderItems [OrderItem.mk 0 "A" 3 1000] true;
      EvUpdateStock "A" 2 true])
  /\
  (In (Order.mk 0 "alice" 3000 "pending")
     [Order.mk 0 "alice" 3000 "pending"] /\
   "pending" = "pending" /\
   exists h,
     Some "Bearer tok" = Some h /\
     auth_alice (replace_first "Bearer " "" h) = Returned (Some "alice")).
Proof.
  split; [reflexivity |].
  exact (order_belongs_to_caller auth_alice
           (Request.mk "POST" (Some "Bearer tok") (cart [("A", 3)]))
           [] store0 _ _ _ eq_refl).
Defined.

(** ** Beyond the claims: what a request leaves in the store *)

Lemma call_insert_order_catalog (f : bool) (user : string) (total : Z)
  (st : string) (s : Store) :
  products (snd (call_insert_order f user total st s)) = products s.
Proof.
  unfold call_insert_order.
  destruct (f || negb (order_row_ok total st)); reflexivity.
Qed.

Lemma call_insert_order_items_catalog (f : bool) (rows : list OrderItem.t)
  (s : Store) :
  products (snd (call_insert_order_items f rows s)) = products s.
Proof.
  unfold call_insert_order_items.
  destruct (f || negb (forallb (order_item_row_ok s) rows)); reflexivity.
Qed.

Lemma call_delete_order_catalog (f : bool) (oid : nat) (s : Store) :
  products (snd (call_delete_order f oid s)) = products s.
Proof. unfold call_delete_order. destruct f; reflexivity. Qed.

Lemma call_update_stock_catalog (f : bool) (pid : string) (n : Z)
  (s : Store) :
  map catalog_entry (products (snd (call_update_stock f pid n s)))
  = map catalog_entry (products s).
Proof.
  unfold call_update_stock.
  destruct (f || negb (stock_ok n)); simpl; [reflexivity |].
  rewrite map_map. apply map_ext. intros p.
  destruct (String.eqb (Product.id p) pid); reflexivity.
Qed.

(** X5: no run of the function, alone or interleaved with another one,
    adds or removes a product or changes the id, the name or the price of
    one: only stocks are written. *)
Theorem catalog_never_rewritten (user1 user2 : string) (b1 b2 : Body)
  (fails : list bool) (sched : list bool) (s : Store) :
  map catalog_entry (products (snd (fst (create_order user1 b1 fails s))))
  = map catalog_entry (products s) /\
  map catalog_entry
    (products (snd (create_order2 sched user1 b1 user2 b2 s)))
  = map catalog_entry (products s).
Proof.
  split.
  - apply (create_order_inv
             (fun s' => map catalog_entry (products s')
                        = map catalog_entry (products s))).
    + intros f u t st s0 H. rewrite call_insert_order_catalog. exact H.
    + intros f rows s0 H. rewrite call_insert_order_items_catalog. exact H.
    + intros f oid s0 H. rewrite call_delete_order_catalog. exact H.
    + intros f pid n s0 H. rewrite call_update_stock_catalog. exact H.
    + reflexivity.
  - apply (create_order2_inv
             (fun s' => map catalog_entry (products s')
                        = map catalog_entry (products s))).
    + intros f u t st s0 H. rewrite call_insert_order_catalog. exact H.
    + intros f rows s0 H. rewrite call_insert_order_items_catalog. exact H.
    + intros f oid s0 H. rewrite call_delete_order_catalog. exact H.
    + intros f pid n s0 H. rewrite call_update_stock_catalog. exact H.
    + reflexivity.
Qed.

Lemma filter_keep_all {A : Type} (f : A -> bool) (l : list A) :
  Forall (fun x => f x = true) l -> filter f l = l.
Proof.
  induction 1 as [| x l Hx _ IH]; simpl; [reflexivity |].
  rewrite Hx, IH. reflexivity.
Qed.

(** Deleting the order that was just inserted gives back the tables. *)
Lemma delete_inserted_order (s : Store) (o : Order.t) :
  store_wf s ->
  Order.id o = next_order_id s ->
  let s1 := mkStore (products s) (orders s ++ [o])%list (order_items s)
              (S (next_order_id s)) in
  orders (delete_order (Order.id o) s1) = orders s /\
  order_items (delete_order (Order.id o) s1) = order_items s.
Proof.
  intros [Ho Hi] E. simpl. rewrite E. split.
  - rewrite filter_app. simpl. rewrite E, Nat.eqb_refl. simpl.
    rewrite app_nil_r. apply filter_keep_all.
    revert Ho. apply Forall_impl. intros x Hx.
    apply negb_true_iff. apply Nat.eqb_neq. lia.
  - apply filter_keep_all.
    revert Hi. apply Forall_impl. intros x Hx.
    apply negb_true_iff. apply Nat.eqb_neq. lia.
Qed.

(** X6: a request that is not answered 200 changes no stock and no line
    item, and leaves the orders as they were, unless the line items were
    refused and the delete that undoes the header failed as well: then the
    header, and only it, stays. *)
Theorem failed_request_keeps_rows (user : string) (b : Body)
  (fails : list bool) (s s' : Store) (r : Response) (tr : list Event) :
  store_wf s ->
  create_order user b fails s = (r, s', tr) ->
  status r <> 200 ->
  products s' = products s /\
  order_items s' = order_items s /\
  (orders s' = orders s \/
   exists o, orders s' = (orders s ++ [o])%list /\
             In (EvDeleteOrder (Order.id o) false) tr).
Proof.
  intros Hwf H Hst.
  destruct b as [m | [| items |]];
    try (cbn in H; inversion H; subst; auto).
  destruct items as [| item0 items0];
    [cbn in H; inversion H; subst; auto |].
  pose proof (create_order_replay _ _ _ _ _ _ _ H) as R.
  destruct (create_order_paths user (item0 :: items0) fails s s' r tr
              ltac:(intros K; discriminate K) H)
    as [(_ & _ & -> & _) | [(_ & _ & -> & _) | [(_ & _ & _ & -> & _)
       | [(_ & _ & _ & Hp & rows & del & _ & ->)
         | (_ & _ & -> & _)]]]]; auto.
  - set (o := new_order user (item0 :: items0) s) in *.
    destruct del.
    + destruct (delete_inserted_order s o Hwf eq_refl) as [Do Di].
      rewrite R. cbn [replay fold_left apply_event]. auto.
    + rewrite R. cbn [replay fold_left apply_event]. simpl.
      repeat split. right. exists o. split; [reflexivity |].
      right; right; right; left; reflexivity.
  - exfalso. apply Hst. reflexivity.
Qed.

Lemma failed_request_keeps_rows_witness :
  store_wf store0 /\
  create_order "u" (cart [("A", 3)]) [false; false; true; true] store0
  = (error_response 500 "Failed to create order items",
     mkStore (products store0) [order_0 3000] [] 1,
     [EvSelect ["A"] true;
      EvInsertOrder 3000 (Some (order_0 3000));
      EvInsertOrderItems [OrderItem.mk 0 "A" 3 1000] false;
      EvDeleteOrder 0 false])
  /\
  status (error_response 500 "Failed to create order items") <> 200
  /\
  (products store0 = products store0 /\
   @nil OrderItem.t = [] /\
   ([order_0 3000] = [] \/
    exists o, [order_0 3000] = ([] ++ [o])%list /\
              In (EvDeleteOrder (Order.id o) false)
                [EvSelect ["A"] true;
                 EvInsertOrder 3000 (Some (order_0 3000));
                 EvInsertOrderItems [OrderItem.mk 0 "A" 3 1000] false;
                 EvDeleteOrder 0 false])).
Proof.
  assert (H3 : status (error_response 500 "Failed to create order items")
               <> 200) by (simpl; lia).
  split; [exact store0_wf |]. split; [reflexivity |]. split; [exact H3 |].
  exact (failed_request_keeps_rows "u" (cart [("A", 3)])
           [false; false; true; true] store0 _ _ _ store0_wf eq_refl H3).
Defined.

Lemma quantities_positive (items : list CartItem.t)
  (rows : list OrderItem.t) :
  Forall2 (fun item row => OrderItem.quantity row = CartItem.quantity item)
    items rows ->
  Forall (fun row => 0 < OrderItem.quantity row) rows ->
  Forall (fun item => 0 < CartItem.quantity item) items.
Proof.
  induction 1 as [| item row items rows Q _ IH]; intros P; constructor.
  - inversion P; subst. lia.
  - apply IH. inversion P; assumption.
Qed.

(** X7: a request with an entry whose quantity is zero or negative is
    never answered 200, never gets a line item inserted and never changes
    a stock, whatever the store answers. *)
Theorem non_positive_quantity_never_committed (user : string)
  (items : list CartItem.t) (fails : list bool) (s s' : Store)
  (r : Response) (tr : list Event) :
  (exists item, In item items /\ CartItem.quantity item <= 0) ->
  create_order user (BodyJson (ItemsArray items)) fails s = (r, s', tr) ->
  status r <> 200 /\
  products s' = products s /\
  forall rows, ~ In (EvInsertOrderItems rows true) tr.
Proof.
  intros (bad & Hin & Hq) H.
  assert (Hne : items <> []) by (intros ->; inversion Hin).
  assert (Htr : snd (run (place_order user (BodyJson (ItemsArray items)))
                       fails s) = tr).
  { unfold create_order in H.
    destruct (run _ fails s) as [[out s1] tr1]. inversion H; reflexivity. }
  assert (Hno : forall rows, ~ In (EvInsertOrderItems rows true) tr).
  { intros rows K.
    destruct (create_order_paths user items fails s s' r tr Hne H)
      as [(_ & _ & _ & E) | [(_ & _ & _ & E) | [(_ & _ & _ & _ & E)
         | [(_ & _ & _ & _ & rs & del & _ & E)
           | (_ & _ & _ & _ & _ & rs & tr' & R & _ & E & U)]]]];
      rewrite E in K.
    - destruct K as [K | []]; discriminate K.
    - destruct K as [K | []]; discriminate K.
    - destruct K as [K | [K | []]]; discriminate K.
    - destruct K as [K | [K | [K | [K | []]]]]; discriminate K.
    - assert (Kin : In (EvInsertOrderItems rs true) tr)
        by (rewrite E; right; right; left; reflexivity).
      rewrite <- Htr in Kin.
      apply run_inserted_rows_positive in Kin.
      pose proof (orderItems_rows _ _ _ _ R) as F2.
      assert (Q : Forall2
                    (fun item row =>
                       OrderItem.quantity row = CartItem.quantity item)
                    items rs)
        by (revert F2; apply Forall2_impl; intros a b0 K0; tauto).
      pose proof (quantities_positive items rs Q Kin) as P.
      rewrite Forall_forall in P. specialize (P bad Hin). lia. }
  split; [| split; [| exact Hno]].
  - intros Hst.
    destruct (create_order_paths user items fails s s' r tr Hne H)
      as [(_ & -> & _) | [(_ & V & _) | [(_ & _ & -> & _)
         | [(_ & _ & -> & _)
           | (_ & _ & _ & _ & _ & rs & tr' & _ & _ & E & _)]]]];
      try (simpl in Hst; lia).
    + destruct (validate_some _ _ _ V) as (msg & [-> | ->]);
        simpl in Hst; lia.
    + apply (Hno rs). rewrite E. right; right; left; reflexivity.
  - destruct (create_order_paths user items fails s s' r tr Hne H)
      as [(_ & _ & -> & _) | [(_ & _ & -> & _) | [(_ & _ & _ & -> & _)
         | [(_ & _ & _ & Hp & _)
           | (_ & _ & _ & _ & _ & rs & tr' & _ & _ & E & _)]]]]; auto.
    exfalso. apply (Hno rs). rewrite E. right; right; left; reflexivity.
Qed.

Lemma non_positive_quantity_never_committed_witness :
  (exists item,
      In item [CartItem.mk "A" 2; CartItem.mk "B" (-1)] /\
      CartItem.quantity item <= 0)
  /\
  create_order "u" (cart [("A", 2); ("B", -1)]) [] store0
  = (error_response 500 "Failed to create order items",
     mkStore (products store0) [] [] 1,
     [EvSelect ["A"; "B"] true;
      EvInsertOrder 0 (Some (order_0 0));
      EvInsertOrderItems
        [OrderItem.mk 0 "A" 2 1000; OrderItem.mk 0 "B" (-1) 2000] false;
      EvDeleteOrder 0 true])
  /\
  (status (error_response 500 "Failed to create order items") <> 200 /\
   products store0 = products store0 /\
   forall rows,
     ~ In (EvInsertOrderItems rows true)
         [EvSelect ["A"; "B"] true;
          EvInsertOrder 0 (Some (order_0 0));
          EvInsertOrderItems
            [OrderItem.mk 0 "A" 2 1000; OrderItem.mk 0 "B" (-1) 2000] false;
          EvDeleteOrder 0 true]).
Proof.
  assert (H1 : exists item,
             In item [CartItem.mk "A" 2; CartItem.mk "B" (-1)] /\
             CartItem.quantity item <= 0).
  { exists (CartItem.mk "B" (-1)). split; [right; left; reflexivity |].
    simpl; lia. }
  split; [exact H1 |]. split; [reflexivity |].
  exact (non_positive_quantity_never_committed "u"
           [CartItem.mk "A" 2; CartItem.mk "B" (-1)] [] store0 _ _ _ H1
           eq_refl).
Defined.

(** ** Beyond the claims: the stock after an order *)

(** The run of a committed order, up to the last loop. *)
Lemma committed_run (user : string) (items : list CartItem.t)
  (fails : list bool) (s s' : Store) (o : Order.t) (tr : list Event) :
  create_order user (BodyJson (ItemsArray items)) fails s
  = (success_response o, s', tr) ->
  let ids := map CartItem.product_id items in
  let ps := select_products ids s in
  Forall (passes ps) items /\
  exists rows fails3 s3 tr',
    orderItems o ps items = Returned rows /\
    products s3 = products s /\
    run (update_stocks ps items (Ret (success_response o))) fails3 s3
    = (Returned (success_response o), s', tr') /\
    tr = EvSelect ids true :: EvInsertOrder (Order.total_amount o) (Some o)
         :: EvInsertOrderItems rows true :: tr'.
Proof.
  intros H ids ps.
  destruct items as [| item0 items0]; [cbn in H; discriminate H |].
  unfold create_order in H. cbn [place_order run] in H. fold ids in H.
  destruct (fst (next_outcome fails)) eqn:F1;
    [cbn [call_select run negb catch_handler] in H;
     unfold error_response, success_response in H; discriminate H |].
  unfold call_select in H. fold ps in H.
  destruct (validate ps (item0 :: items0)) as [resp |] eqn:V.
  { cbn [run negb catch_handler] in H. inversion H; subst.
    destruct (validate_some _ _ _ V) as (msg & [E | E]);
      unfold error_response, success_response in E; discriminate E. }
  split; [exact (validate_none ps _ V) |].
  cbn [run] in H. unfold call_insert_order in H.
  destruct (fst (next_outcome (snd (next_outcome fails)))
            || negb (order_row_ok (totalAmount ps (item0 :: items0))
                       "pending"));
    [cbn [run catch_handler] in H;
     unfold error_response, success_response in H; discriminate H |].
  unfold insert_order in H.
  set (o' := Order.mk (next_order_id s) user
               (totalAmount ps (item0 :: items0)) "pending") in *.
  destruct (orderItems_returns ps o' (item0 :: items0)
              (validate_none ps _ V)) as (rows & Hrows).
  rewrite Hrows in H. cbn [run] in H.
  unfold call_insert_order_items in H.
  match type of H with
  | context [if ?c then (true, ?s1) else _] =>
      destruct c; set (s_hdr := s1) in *
  end.
  { cbn [run] in H. unfold call_delete_order in H.
    match type of H with
    | context [if ?c then (true, _) else (false, delete_order _ _)] =>
        destruct c
    end;
      cbn [run negb catch_handler] in H;
      unfold error_response, success_response in H; discriminate H. }
  match type of H with
  | context [run (update_stocks ps ?its ?k) ?f ?s3] =>
      destruct (run_update_stocks ps its (success_response o') f s3)
        as (s2 & tr2 & Hr & _);
      rewrite Hr in H; cbn [catch_handler] in H;
      inversion H as [[Eo Es Et]];
      exists rows, f, s3, tr2
  end.
  rewrite <- Es. repeat split; auto.
Qed.

(** The calls of the last loop: one update per entry, in the order of the
    request, each writing the stock read minus the quantity of its
    entry. *)
Lemma update_stocks_trace (ps : list Product.t) (r : Response)
  (items : list CartItem.t) :
  Forall (passes ps) items ->
  forall (fails : list bool) (s : Store),
  Forall2 (update_of ps) items
    (snd (run (update_stocks ps items (Ret r)) fails s)).
Proof.
  induction 1 as [| item rest (p & F & _) _ IH]; intros fails s; simpl.
  - constructor.
  - rewrite F. cbn [run].
    destruct (call_update_stock _ _ _ s) as [err s1].
    specialize (IH (snd (next_outcome fails)) s1).
    destruct (run (update_stocks ps rest (Ret r)) _ s1) as [[out s2] tr2].
    simpl in *. constructor; [| exact IH].
    exists p, (negb err). split; [exact F | reflexivity].
Qed.

Lemma stock_of_update_other (pid pid' : string) (n : Z) (s : Store) :
  pid <> pid' -> stock_of pid (update_stock pid' n s) = stock_of pid s.
Proof.
  intros Hne. unfold stock_of, find_product, update_stock; simpl.
  induction (products s) as [| p rest IH]; simpl; [reflexivity |].
  destruct (String.eqb (Product.id p) pid') eqn:E'.
  - simpl. apply String.eqb_eq in E'.
    destruct (String.eqb (Product.id p) pid) eqn:E.
    + apply String.eqb_eq in E. congruence.
    + exact IH.
  - destruct (String.eqb (Product.id p) pid); [reflexivity | exact IH].
Qed.

Lemma stock_of_update_same (pid : string) (n : Z) (s : Store) :
  stock_of pid s <> None -> stock_of pid (update_stock pid n s) = Some n.
Proof.
  unfold stock_of, find_product, update_stock; simpl.
  induction (products s) as [| p rest IH]; simpl; [congruence |].
  destruct (String.eqb (Product.id p) pid) eqn:E.
  - simpl. rewrite E. reflexivity.
  - rewrite E. exact IH.
Qed.

Section StockUpdates.

Variable ps : list Product.t.

Lemma replay_updates_frame (items : list CartItem.t) (tr : list Event)
  (pid : string) :
  Forall2 (update_of ps) items tr ->
  ~ In pid (map CartItem.product_id items) ->
  forall s, stock_of pid (replay tr s) = stock_of pid s.
Proof.
  induction 1 as [| item e items tr (p & ok & F & ->) _ IH];
    intros Hn s; [reflexivity |].
  rewrite replay_cons. simpl in Hn.
  rewrite IH by tauto.
  destruct ok; simpl; [| reflexivity].
  apply stock_of_update_other. intros E. apply Hn. left. auto.
Qed.

Lemma replay_updates_exact (items : list CartItem.t) (tr : list Event) :
  Forall2 (update_of ps) items tr ->
  existsb update_failed tr = false ->
  NoDup (map CartItem.product_id items) ->
  forall s item p,
  In item items ->
  find_product ps (CartItem.product_id item) = Some p ->
  stock_of (CartItem.product_id item) s <> None ->
  stock_of (CartItem.product_id item) (replay tr s)
  = Some (Product.stock p - CartItem.quantity item).
Proof.
  induction 1 as [| item0 e items tr (p0 & ok & F0 & ->) F2 IH];
    intros Hok Hnd s item p Hin F Hs; [contradiction |].
  rewrite replay_cons.
  simpl in Hok. apply orb_false_elim in Hok. destruct Hok as [Hok0 Hok].
  destruct ok; [| discriminate Hok0]. simpl.
  inversion Hnd as [| x l Hnotin Hnd']; subst.
  destruct Hin as [-> | Hin].
  - rewrite (replay_updates_frame items tr _ F2 Hnotin).
    rewrite F in F0. inversion F0; subst p0.
    apply stock_of_update_same; exact Hs.
  - apply IH; auto.
    assert (Hne : CartItem.product_id item <> CartItem.product_id item0).
    { intros E. apply Hnotin. rewrite <- E. apply in_map; exact Hin. }
    rewrite stock_of_update_other by exact Hne. exact Hs.
Qed.

End StockUpdates.

Lemma Forall2_In_right {A B : Type} (R : A -> B -> Prop) (l : list A)
  (l' : list B) (b : B) :
  Forall2 R l l' -> In b l' -> exists a, In a l /\ R a b.
Proof.
  induction 1 as [| x y l l' Hxy _ IH]; intros Hin; [contradiction |].
  destruct Hin as [<- | Hin].
  - exists x. split; [left; reflexivity | exact Hxy].
  - destruct (IH Hin) as (a & Ha & Hr). exists a. split; [right |]; auto.
Qed.

(** The updates of a committed order, and the store they lead to. *)
Lemma committed_updates (user : string) (items : list CartItem.t)
  (fails : list bool) (s s' : Store) (o : Order.t) (tr : list Event) :
  create_order user (BodyJson (ItemsArray items)) fails s
  = (success_response o, s', tr) ->
  let ps := select_products (map CartItem.product_id items) s in
  Forall (passes ps) items /\
  Forall (fun item => 0 < CartItem.quantity item) items /\
  exists e1 e2 e3 tr' s3,
    tr = e1 :: e2 :: e3 :: tr' /\
    update_failed e1 = false /\ update_failed e2 = false /\
    update_failed e3 = false /\
    (forall pid n ok, e1 <> EvUpdateStock pid n ok) /\
    (forall pid n ok, e2 <> EvUpdateStock pid n ok) /\
    (forall pid n ok, e3 <> EvUpdateStock pid n ok) /\
    Forall2 (update_of ps) items tr' /\
    products s3 = products s /\
    s' = replay tr' s3.
Proof.
  intros H ps.
  destruct (committed_run user items fails s s' o tr H)
    as (Hp & rows & fails3 & s3 & tr' & R & P3 & Hrun & Etr).
  fold ps in Hp, R, Hrun.
  split; [exact Hp |]. split.
  - assert (Kin : In (EvInsertOrderItems rows true)
                    (snd (run (place_order user (BodyJson (ItemsArray items)))
                            fails s))).
    { unfold create_order in H.
      destruct (run _ fails s) as [[out s1] tr1]. inversion H; subst.
      simpl. right; right; left; reflexivity. }
    apply run_inserted_rows_positive in Kin.
    apply (quantities_positive items rows); [| exact Kin].
    generalize (orderItems_rows _ _ _ _ R).
    apply Forall2_impl. intros a b K; tauto.
  - eexists _, _, _, tr', s3. split; [exact Etr |].
    repeat split; try discriminate.
    + pose proof (update_stocks_trace ps (success_response o) items Hp
                    fails3 s3) as T.
      rewrite Hrun in T. exact T.
    + exact P3.
    + pose proof (run_replay
                    (update_stocks ps items (Ret (success_response o)))
                    fails3 s3) as K.
      rewrite Hrun in K. exact K.
Qed.

(** X8: when the entries of a committed order name different products and
    no stock update fails, every product of the request ends with the
    stock it had when the request was validated minus the quantity
    ordered. *)
Theorem stock_after_order (user : string) (items : list CartItem.t)
  (fails : list bool) (s s' : Store) (o : Order.t) (tr : list Event) :
  NoDup (map CartItem.product_id items) ->
  create_order user (BodyJson (ItemsArray items)) fails s
  = (success_response o, s', tr) ->
  existsb update_failed tr = false ->
  forall item,
    In item items ->
    exists p,
      find_product (products s) (CartItem.product_id item) = Some p /\
      stock_of (CartItem.product_id item) s'
      = Some (Product.stock p - CartItem.quantity item).
Proof.
  intros Hnd H Hok item Hin.
  destruct (committed_updates user items fails s s' o tr H)
    as (Hp & _ & e1 & e2 & e3 & tr' & s3 & -> & U1 & U2 & U3 & _ & _ & _
        & F2 & P3 & ->).
  simpl in Hok. rewrite U1, U2, U3 in Hok. simpl in Hok.
  rewrite Forall_forall in Hp. destruct (Hp item Hin) as (p & F & _).
  exists p.
  assert (Fs : find_product (products s) (CartItem.product_id item) = Some p)
    by (rewrite <- F; symmetry; apply find_select; apply in_map; exact Hin).
  split; [exact Fs |].
  apply (replay_updates_exact _ items tr' F2 Hok Hnd s3 item p Hin F).
  unfold stock_of. rewrite P3, Fs. discriminate.
Qed.

Lemma stock_after_order_witness :
  NoDup (map CartItem.product_id [CartItem.mk "A" 3; CartItem.mk "B" 1]) /\
  create_order "u" (cart [("A", 3); ("B", 1)]) [] store0
  = (success_response (order_0 5000),
     mkStore
       [set_stock 2 product_A; set_stock 1 product_B; product_C]
       [order_0 5000]
       [OrderItem.mk 0 "A" 3 1000; OrderItem.mk 0 "B" 1 2000]
       1,
     [EvSelect ["A"; "B"] true;
      EvInsertOrder 5000 (Some (order_0 5000));
      EvInsertOrderItems
        [OrderItem.mk 0 "A" 3 1000; OrderItem.mk 0 "B" 1 2000] true;
      EvUpdateStock "A" 2 true;
      EvUpdateStock "B" 1 true])
  /\
  existsb update_failed
    [EvSelect ["A"; "B"] true;
     EvInsertOrder 5000 (Some (order_0 5000));
     EvInsertOrderItems
       [OrderItem.mk 0 "A" 3 1000; OrderItem.mk 0 "B" 1 2000] true;
     EvUpdateStock "A" 2 true;
     EvUpdateStock "B" 1 true] = false
  /\
  (forall item,
     In item [CartItem.mk "A" 3; CartItem.mk "B" 1] ->
     exists p,
       find_product (products store0) (CartItem.product_id item) = Some p /\
       stock_of (CartItem.product_id item)
         (mkStore
            [set_stock 2 product_A; set_stock 1 product_B; product_C]
            [order_0 5000]
            [OrderItem.mk 0 "A" 3 1000; OrderItem.mk 0 "B" 1 2000]
            1)
       = Some (Product.stock p - CartItem.quantity item)).
Proof.
  assert (H1 : NoDup (map CartItem.product_id
                        [CartItem.mk "A" 3; CartItem.mk "B" 1])).
  { simpl. constructor.
    - intros [K | []]; discriminate K.
    - constructor; [intros [] | constructor]. }
  split; [exact H1 |]. split; [reflexivity |]. split; [reflexivity |].
  exact (stock_after_order "u" [CartItem.mk "A" 3; CartItem.mk "B" 1] []
           store0 _ _ _ H1 eq_refl eq_refl).
Defined.

(** X9: the stock of a product that the request does not name is the same
    after the request as before, whatever the outcome. *)
Theorem unrequested_stock_untouched (user : string)
  (items : list CartItem.t) (fails : list bool) (s s' : Store)
  (r : Response) (tr : list Event) (pid : string) :
  ~ In pid (map CartItem.product_id items) ->
  create_order user (BodyJson (ItemsArray items)) fails s = (r, s', tr) ->
  stock_of pid s' = stock_of pid s.
Proof.
  intros Hn H.
  destruct items as [| item0 items0]; [cbn in H; inversion H; reflexivity |].
  destruct (create_order_paths user (item0 :: items0) fails s s' r tr
              ltac:(intros K; discriminate K) H)
    as [(_ & _ & -> & _) | [(_ & _ & -> & _) | [(_ & _ & _ & -> & _)
       | [(_ & _ & _ & Hp & _)
         | (_ & _ & E & _)]]]]; try reflexivity.
  - unfold stock_of. rewrite Hp. reflexivity.
  - rewrite E in H.
    destruct (committed_updates user _ fails s s' _ tr H)
      as (_ & _ & e1 & e2 & e3 & tr' & s3 & _ & _ & _ & _ & _ & _ & _
          & F2 & P3 & ->).
    rewrite (replay_updates_frame _ _ tr' pid F2 Hn).
    unfold stock_of. rewrite P3. reflexivity.
Qed.

Lemma unrequested_stock_untouched_witness :
  ~ In "B" (map CartItem.product_id [CartItem.mk "A" 3]) /\
  create_order "u" (cart [("A", 3)]) [] store0
  = (success_response (order_0 3000),
     mkStore [set_stock 2 product_A; product_B; product_C]
       [order_0 3000] [OrderItem.mk 0 "A" 3 1000] 1,
     [EvSelect ["A"] true;
      EvInsertOrder 3000 (Some (order_0 3000));
      EvInsertOrderItems [OrderItem.mk 0 "A" 3 1000] true;
      EvUpdateStock "A" 2 true])
  /\
  stock_of "B"
    (mkStore [set_stock 2 product_A; product_B; product_C]
       [order_0 3000] [OrderItem.mk 0 "A" 3 1000] 1)
  = stock_of "B" store0.
Proof.
  assert (H1 : ~ In "B" (map CartItem.product_id [CartItem.mk "A" 3]))
    by (intros [K | []]; discriminate K).
  split; [exact H1 |]. split; [reflexivity |].
  exact (unrequested_stock_untouched "u" [CartItem.mk "A" 3] [] store0 _ _ _
           "B" H1 eq_refl).
Defined.

(** X10: every stock update the function sends, whether the store takes
    it or not, is for a product of the catalog and writes a stock that is
    not negative and is below the stock that was read. *)
Theorem stock_updates_lower_stock (user : string) (b : Body)
  (fails : list bool) (s s' : Store) (r : Response) (tr : list Event)
  (pid : string) (n : Z) (ok : bool) :
  create_order user b fails s = (r, s', tr) ->
  In (EvUpdateStock pid n ok) tr ->
  exists p,
    find_product (products s) pid = Some p /\ 0 <= n < Product.stock p.
Proof.
  intros H Hin.
  destruct b as [m | [| items |]];
    try (cbn in H; inversion H; subst; contradiction).
  destruct items as [| item0 items0];
    [cbn in H; inversion H; subst; contradiction |].
  destruct (create_order_paths user (item0 :: items0) fails s s' r tr
              ltac:(intros K; discriminate K) H)
    as [(_ & _ & _ & E) | [(_ & _ & _ & E) | [(_ & _ & _ & _ & E)
       | [(_ & _ & _ & _ & rs & del & _ & E)
         | (_ & _ & E & _)]]]].
  - rewrite E in Hin. destruct Hin as [K | []]; discriminate K.
  - rewrite E in Hin. destruct Hin as [K | []]; discriminate K.
  - rewrite E in Hin. destruct Hin as [K | [K | []]]; discriminate K.
  - rewrite E in Hin.
    destruct Hin as [K | [K | [K | [K | []]]]]; discriminate K.
  - rewrite E in H.
    destruct (committed_updates user _ fails s s' _ tr H)
      as (Hp & Hq & e1 & e2 & e3 & tr' & s3 & -> & _ & _ & _ & N1 & N2 & N3
          & F2 & _ & _).
    destruct Hin as [K | [K | [K | Hin]]];
      [exfalso; eapply N1; eauto | exfalso; eapply N2; eauto
      | exfalso; eapply N3; eauto |].
    destruct (Forall2_In_right _ _ _ _ F2 Hin)
      as (item & Hitem & p & ok' & F & Ee).
    inversion Ee; subst.
    rewrite Forall_forall in Hp, Hq.
    destruct (Hp item Hitem) as (p' & F' & L).
    rewrite F in F'. inversion F'; subst p'.
    specialize (Hq item Hitem).
    exists p. split; [| lia].
    rewrite <- F. symmetry. apply find_select. apply in_map. exact Hitem.
Qed.

Lemma stock_updates_lower_stock_witness :
  create_order "u" (cart [("A", 3)]) [false; false; false; true] store0
  = (success_response (order_0 3000),
     mkStore (products store0) [order_0 3000] [OrderItem.mk 0 "A" 3 1000] 1,
     [EvSelect ["A"] true;
      EvInsertOrder 3000 (Some (order_0 3000));
      EvInsertOrderItems [OrderItem.mk 0 "A" 3 1000] true;
      EvUpdateStock "A" 2 false])
  /\
  In (EvUpdateStock "A" 2 false)
    [EvSelect ["A"] true;
     EvInsertOrder 3000 (Some (order_0 3000));
     EvInsertOrderItems [OrderItem.mk 0 "A" 3 1000] true;
     EvUpdateStock "A" 2 false]
  /\
  exists p,
    find_product (products store0) "A" = Some p /\ 0 <= 2 < Product.stock p.
Proof.
  assert (H2 : In (EvUpdateStock "A" 2 false)
                 [EvSelect ["A"] true;
                  EvInsertOrder 3000 (Some (order_0 3000));
                  EvInsertOrderItems [OrderItem.mk 0 "A" 3 1000] true;
                  EvUpdateStock "A" 2 false])
    by (right; right; right; left; reflexivity).
  split; [reflexivity |]. split; [exact H2 |].
  exact (stock_updates_lower_stock "u" (cart [("A", 3)])
           [false; false; false; true] store0 _ _ _ "A" 2 false eq_refl H2).
Defined.

Lemma create_order2_stock_nonneg_witness :
  stock_nonneg store0 /\
  stock_nonneg
    (snd (create_order2 [true; false] "u1" (cart [("C", 1)])
            "u2" (cart [("C", 1)]) store0)).
Proof.
  assert (H1 : stock_nonneg store0).
  { unfold stock_nonneg. simpl. repeat constructor; simpl; lia. }
  split; [exact H1 |].
  exact (create_order2_stock_nonneg [true; false] "u1" (cart [("C", 1)])
           "u2" (cart [("C", 1)]) store0 H1).
Defined.

(** ** Beyond the claims: the pages *)

(** The line items of a committed order, entry by entry. *)
Lemma committed_lines (user : string) (items : list CartItem.t)
  (fails : list bool) (s s' : Store) (o : Order.t) (tr : list Event) :
  store_wf s ->
  create_order user (BodyJson (ItemsArray items)) fails s
  = (success_response o, s', tr) ->
  map (fun li => (OrderItem.product_id li, OrderItem.quantity li))
    (line_items_of (Order.id o) s')
  = map (fun item => (CartItem.product_id item, CartItem.quantity item))
      items.
Proof.
  intros Hwf H.
  destruct (committed_inv user _ fails s s' o tr H)
    as (items' & rows & Eb & Eo & R & Ho & Hi).
  inversion Eb; subst items'; clear Eb.
  pose proof (orderItems_rows _ o items rows R) as F2.
  rewrite (line_items_of_committed s s' (Order.id o) rows); auto.
  - assert (Q : Forall2
                  (fun item row =>
                     OrderItem.product_id row = CartItem.product_id item /\
                     OrderItem.quantity row = CartItem.quantity item)
                  items rows)
      by (revert F2; apply Forall2_impl; intros a b0 K0; tauto).
    clear - Q.
    induction Q as [| item row its rws (P & Q') _ IH]; simpl;
      [reflexivity |].
    rewrite P, Q', IH. reflexivity.
  - rewrite Eo; reflexivity.
  - apply (Forall2_right _ _ _ _ (fun a b K => proj1 K) F2).
Qed.

(** X12: the cart page clears the cart only when the function has stored
    an order for it: the order belongs to the user of the session token,
    and its line items are the lines of the cart, product by product and
    quantity by quantity. *)
Theorem cart_cleared_only_when_committed
  (auth : string -> Outcome (option string)) (user : option string)
  (cart : list CartLine.t) (session : option string) (network_down : bool)
  (fails : list bool) (s s' : Store) (effects : list UiEffect)
  (tr : list Event) :
  store_wf s ->
  handleCheckout auth user cart session network_down fails s
  = (effects, s', tr) ->
  In ClearCart effects ->
  exists token o,
    session = Some token /\
    auth token = Returned (Some (Order.user_id o)) /\
    In o (orders s') /\
    map (fun li => (OrderItem.product_id li, OrderItem.quantity li))
      (line_items_of (Order.id o) s')
    = map (fun l => (Product.id (CartLine.product l), CartLine.quantity l))
        cart.
Proof.
  intros Hwf H Hin. unfold handleCheckout in H.
  destruct user as [u |].
  2: { inversion H; subst. simpl in Hin.
       destruct Hin as [K | [K | []]]; discriminate K. }
  destruct cart as [| l0 cart0].
  { inversion H; subst. destruct Hin as [K | []]; discriminate K. }
  destruct session as [token |].
  2: { inversion H; subst.
       destruct Hin as [K | [K | [K | [K | []]]]]; discriminate K. }
  destruct network_down.
  { inversion H; subst.
    destruct Hin as [K | [K | [K | [K | []]]]]; discriminate K. }
  set (items := map (fun item =>
                       CartItem.mk (Product.id (CartLine.product item))
                         (CartLine.quantity item)) (l0 :: cart0)) in *.
  unfold serve in H.
  cbn [Request.method Request.authorization Request.json] in H.
  change (String.eqb "POST" "OPTIONS") with false in H.
  change (String.eqb ("Bearer " ++ token) "") with false in H.
  cbv iota in H. rewrite replace_first_prefix in H.
  change ("" ++ token) with token in H.
  destruct (auth token) as [[uid |] | m] eqn:A.
  - destruct (create_order uid (BodyJson (ItemsArray items)) fails s)
      as [[r s1] tr1] eqn:C.
    destruct ((200 <=? status r) && (status r <=? 299)
              && is_success (body r)) eqn:Ok.
    + inversion H; subst. clear Hin H.
      destruct (create_order_response _ _ _ _ _ _ _ C)
        as [(o & -> & Eo & Ho) | (st & msg & -> & _)];
        [| simpl in Ok; rewrite andb_false_r in Ok; discriminate Ok].
      exists token, o. split; [reflexivity |].
      split; [rewrite Eo; exact A |]. split; [exact Ho |].
      rewrite (committed_lines uid items fails s s' o tr Hwf C).
      unfold items. rewrite map_map. reflexivity.
    + inversion H; subst.
      destruct Hin as [K | [K | [K | []]]]; discriminate K.
  - cbn [catch_handler error_response status body] in H.
    change ((200 <=? 401) && (401 <=? 299) && false) with false in H.
    inversion H; subst.
    destruct Hin as [K | [K | [K | []]]]; discriminate K.
  - cbn [catch_handler error_response status body is_success] in H.
    rewrite andb_false_r in H.
    inversion H; subst.
    destruct Hin as [K | [K | [K | []]]]; discriminate K.
Qed.

Lemma cart_cleared_only_when_committed_witness :
  store_wf store0 /\
  handleCheckout auth_alice (Some "alice") [CartLine.mk product_A 3]
    (Some "tok") false [] store0
  = ([SetLoading true; Alert "Order placed successfully!"; ClearCart;
      Navigate "orders"; SetLoading false],
     mkStore [set_stock 2 product_A; product_B; product_C]
       [Order.mk 0 "alice" 3000 "pending"]
       [OrderItem.mk 0 "A" 3 1000] 1,
     [EvSelect ["A"] true;
      EvInsertOrder 3000 (Some (Order.mk 0 "alice" 3000 "pending"));
      EvInsertOrderItems [OrderItem.mk 0 "A" 3 1000] true;
      EvUpdateStock "A" 2 true])
  /\
  In ClearCart
    [SetLoading true; Alert "Order placed successfully!"; ClearCart;
     Navigate "orders"; SetLoading false]
  /\
  exists token o,
    Some "tok" = Some token /\
    auth_alice token = Returned (Some (Order.user_id o)) /\
    In o [Order.mk 0 "alice" 3000 "pending"] /\
    map (fun li => (OrderItem.product_id li, OrderItem.quantity li))
      (line_items_of (Order.id o)
         (mkStore [set_stock 2 product_A; product_B; product_C]
            [Order.mk 0 "alice" 3000 "pending"]
            [OrderItem.mk 0 "A" 3 1000] 1))
    = map (fun l => (Product.id (CartLine.product l), CartLine.quantity l))
        [CartLine.mk product_A 3].
Proof.
  assert (H3 : In ClearCart
                 [SetLoading true; Alert "Order placed successfully!";
                  ClearCart; Navigate "orders"; SetLoading false])
    by (right; right; left; reflexivity).
  split; [exact store0_wf |]. split; [reflexivity |]. split; [exact H3 |].
  exact (cart_cleared_only_when_committed auth_alice (Some "alice")
           [CartLine.mk product_A 3] (Some "tok") false [] store0 _ _ _
           store0_wf eq_refl H3).
Defined.

Lemma setQuantity_at_least_one (stock : Z) (actions : list QuantityAction) :
  1 <= stock ->
  forall q, 1 <= q -> 1 <= fold_left (setQuantity stock) actions q.
Proof.
  intros Hs. induction actions as [| a rest IH]; intros q Hq; simpl;
    [exact Hq |].
  apply IH. destruct a as [| | [n |]]; simpl; lia.
Qed.

(** X13: what the product page and the home page put into the cart is the
    product shown, with a quantity of at least 1 and at most the stock
    shown, whatever is done with the quantity field before. *)
Theorem added_quantity_within_stock (p p' : Product.t)
  (actions : list QuantityAction) (q : Z) :
  0 <= Product.stock p ->
  In (AddToCart p' q) (product_page p actions) \/
  In (AddToCart p' q) (handleAddToCart_home p) ->
  p' = p /\ 1 <= q <= Product.stock p.
Proof.
  intros Hs [Hin | Hin].
  - unfold product_page in Hin.
    destruct (Product.stock p =? 0) eqn:Z0; [contradiction |].
    apply Z.eqb_neq in Z0.
    unfold handleAddToCart in Hin.
    pose proof (setQuantity_at_least_one (Product.stock p) actions
                  ltac:(lia) 1 ltac:(lia)) as L.
    destruct (fold_left (setQuantity (Product.stock p)) actions 1
              <=? Product.stock p) eqn:Le.
    + apply Z.leb_le in Le.
      destruct Hin as [K | [K | []]]; [| discriminate K].
      inversion K; subst. split; [reflexivity | lia].
    + destruct Hin as [K | []]; discriminate K.
  - unfold handleAddToCart_home in Hin.
    destruct (0 <? Product.stock p) eqn:Lt.
    + apply Z.ltb_lt in Lt.
      destruct Hin as [K | [K | []]]; [| discriminate K].
      inversion K; subst. split; [reflexivity | lia].
    + destruct Hin as [K | []]; discriminate K.
Qed.

Lemma added_quantity_within_stock_witness :
  0 <= Product.stock product_A /\
  (In (AddToCart product_A 4)
     (product_page product_A [Typed (Some 9); Minus; Typed None; Plus; Plus;
                              Plus])
   \/ In (AddToCart product_A 4) (handleAddToCart_home product_A)) /\
  (product_A = product_A /\ 1 <= 4 <= Product.stock product_A).
Proof.
  assert (H1 : 0 <= Product.stock product_A) by (simpl; lia).
  assert (H2 : In (AddToCart product_A 4)
                 (product_page product_A
                    [Typed (Some 9); Minus; Typed None; Plus; Plus; Plus])
               \/ In (AddToCart product_A 4)
                    (handleAddToCart_home product_A))
    by (left; left; reflexivity).
  split; [exact H1 |]. split; [exact H2 |].
  exact (added_quantity_within_stock product_A product_A _ 4 H1 H2).
Defined.

(** X14: the orders page has a colour of its own for each status the
    schema allows, and gray for anything else. *)
Theorem status_colours (st : string) :
  status_allowed st = true <->
  getStatusColor st <> "bg-gray-100 text-gray-800".
Proof.
  unfold status_allowed, getStatusColor. simpl.
  destruct (String.eqb st "pending");
    [split; [intros _ K; discriminate K | reflexivity] |].
  destruct (String.eqb st "processing");
    [split; [intros _ K; discriminate K | reflexivity] |].
  destruct (String.eqb st "shipped");
    [split; [intros _ K; discriminate K | reflexivity] |].
  destruct (String.eqb st "delivered");
    [split; [intros _ K; discriminate K | reflexivity] |].
  destruct (String.eqb st "cancelled");
    [split; [intros _ K; discriminate K | reflexivity] |].
  simpl. split; [intros K; discriminate K | intros K; contradiction K].
  reflexivity.
Qed.

(** The messages of the first loop are not empty. *)
Lemma validate_message (ps : list Product.t) (items : list CartItem.t)
  (r : Response) :
  validate ps items = Some r -> is_success (body r) = false /\ error_of r <> "".
Proof.
  induction items as [| item rest IH]; simpl; [discriminate |].
  destruct (find_product ps (CartItem.product_id item)) as [p |].
  - destruct (Product.stock p <? CartItem.quantity item).
    + intros H; inversion H; subst. split; [reflexivity |].
      intros K; discriminate K.
    + exact IH.
  - intros H; inversion H; subst. split; [reflexivity |].
    intros K; discriminate K.
Qed.

(** A response of the order part that is not a committed order carries an
    error message that is not empty. *)
Lemma create_order_error_message (user : string) (b : Body)
  (fails : list bool) (s s' : Store) (r : Response) (tr : list Event) :
  create_order user b fails s = (r, s', tr) ->
  (exists o, r = success_response o) \/
  (is_success (body r) = false /\ error_of r <> "").
Proof.
  intros H.
  destruct b as [m | [| items |]].
  - right. cbn in H. inversion H; subst. split; [reflexivity |].
    unfold error_of; simpl. destruct (String.eqb m "") eqn:E.
    + intros K; discriminate K.
    + apply String.eqb_neq; exact E.
  - right. cbn in H. inversion H. split; [reflexivity |].
    intros K; discriminate K.
  - destruct items as [| item0 items0].
    + right. cbn in H. inversion H. split; [reflexivity |].
      intros K; discriminate K.
    + destruct (create_order_paths user (item0 :: items0) fails s s' r tr
                  ltac:(intros K; discriminate K) H)
        as [(_ & -> & _) | [(_ & V & _) | [(_ & _ & -> & _)
           | [(_ & _ & -> & _) | (_ & _ & -> & _)]]]].
      * right. split; [reflexivity | intros K; discriminate K].
      * right. exact (validate_message _ _ _ V).
      * right. split; [reflexivity | intros K; discriminate K].
      * right. split; [reflexivity | intros K; discriminate K].
      * left. eexists; reflexivity.
  - right. cbn in H. inversion H. split; [reflexivity |].
    intros K; discriminate K.
Qed.

(** X15: a checkout that reaches the function and does not clear the cart
    shows the user one alert, with the error message of the function's
    answer, which is never empty: the page's own "Failed to place order"
    is not shown for an answer of the function. *)
Theorem refused_checkout_shows_error
  (auth : string -> Outcome (option string)) (u token : string)
  (l0 : CartLine.t) (cart0 : list CartLine.t) (fails : list bool)
  (s s' : Store) (effects : list UiEffect) (tr : list Event) :
  handleCheckout auth (Some u) (l0 :: cart0) (Some token) false fails s
  = (effects, s', tr) ->
  ~ In ClearCart effects ->
  exists r,
    fst (fst (serve auth
                (Request.mk "POST" (Some ("Bearer " ++ token))
                   (BodyJson
                      (ItemsArray
                         (map (fun item =>
                                 CartItem.mk
                                   (Product.id (CartLine.product item))
                                   (CartLine.quantity item))
                            (l0 :: cart0)))))
                fails s))
    = Answer r /\
    error_of r <> "" /\
    effects = [SetLoading true; Alert (error_of r); SetLoading false].
Proof.
  intros H Hno. unfold handleCheckout in H.
  set (items := map (fun item =>
                       CartItem.mk (Product.id (CartLine.product item))
                         (CartLine.quantity item)) (l0 :: cart0)) in *.
  destruct (serve auth
              (Request.mk "POST" (Some ("Bearer " ++ token))
                 (BodyJson (ItemsArray items))) fails s)
    as [[reply s1] tr1] eqn:S.
  assert (K : exists r, reply = Answer r /\
                        ((exists o, r = success_response o) \/
                         (is_success (body r) = false /\ error_of r <> ""))).
  { unfold serve in S.
    cbn [Request.method Request.authorization Request.json] in S.
    change (String.eqb "POST" "OPTIONS") with false in S.
    change (String.eqb ("Bearer " ++ token) "") with false in S.
    cbv iota in S. rewrite replace_first_prefix in S.
    change ("" ++ token) with token in S.
    destruct (auth token) as [[uid |] | m].
    - destruct (create_order uid (BodyJson (ItemsArray items)) fails s)
        as [[r s2] tr2] eqn:C.
      inversion S; subst. exists r. split; [reflexivity |].
      exact (create_order_error_message _ _ _ _ _ _ _ C).
    - inversion S; subst. eexists. split; [reflexivity |]. right.
      split; [reflexivity | intros K; discriminate K].
    - inversion S; subst. eexists. split; [reflexivity |]. right.
      split; [reflexivity |].
      unfold error_of; simpl. destruct (String.eqb m "") eqn:E.
      + intros K; discriminate K.
      + apply String.eqb_neq; exact E. }
  destruct K as (r & -> & [(o & ->) | (Hs & Hm)]).
  - exfalso. apply Hno. cbn in H. inversion H; subst.
    right; right; left; reflexivity.
  - exists r. split; [reflexivity |]. split; [exact Hm |].
    rewrite Hs, andb_false_r in H.
    apply String.eqb_neq in Hm. rewrite Hm in H.
    inversion H; reflexivity.
Qed.

Lemma refused_checkout_shows_error_witness :
  handleCheckout auth_alice (Some "alice") [CartLine.mk product_B 5]
    (Some "tok") false [] store0
  = ([SetLoading true;
      Alert "Insufficient stock for Gadget. Available: 2";
      SetLoading false],
     store0, [EvSelect ["B"] true])
  /\
  ~ In ClearCart
      [SetLoading true;
       Alert "Insufficient stock for Gadget. Available: 2";
       SetLoading false]
  /\
  exists r,
    fst (fst (serve auth_alice
                (Request.mk "POST" (Some ("Bearer " ++ "tok"))
                   (BodyJson
                      (ItemsArray
                         (map (fun item =>
                                 CartItem.mk
                                   (Product.id (CartLine.product item))
                                   (CartLine.quantity item))
                            [CartLine.mk product_B 5]))))
                [] store0))
    = Answer r /\
    error_of r <> "" /\
    [SetLoading true;
     Alert "Insufficient stock for Gadget. Available: 2";
     SetLoading false]
    = [SetLoading true; Alert (error_of r); SetLoading false].
Proof.
  assert (H2 : ~ In ClearCart
                   [SetLoading true;
                    Alert "Insufficient stock for Gadget. Available: 2";
                    SetLoading false])
    by (intros [K | [K | [K | []]]]; discriminate K).
  split; [reflexivity |]. split; [exact H2 |].
  exact (refused_checkout_shows_error auth_alice "alice" "tok"
           (CartLine.mk product_B 5) [] [] store0 _ _ _ eq_refl H2).
Defined.

(** ** The total of a large order *)

Lemma validate_repeat (ps : list Product.t) (item : CartItem.t) (n : nat) :
  passes ps item -> validate ps (repeat item n) = None.
Proof.
  intros (p & F & L). induction n as [| n IH]; simpl; [reflexivity |].
  rewrite F. apply Z.ltb_ge in L. rewrite L. exact IH.
Qed.

Lemma orderItems_repeat (o : Order.t) (ps : list Product.t)
  (item : CartItem.t) (p : Product.t) (n : nat) :
  find_product ps (CartItem.product_id item) = Some p ->
  orderItems o ps (repeat item n)
  = Returned
      (repeat (OrderItem.mk (Order.id o) (CartItem.product_id item)
                 (CartItem.quantity item) (Product.price p)) n).
Proof.
  intros F. induction n as [| n IH]; simpl; [reflexivity |].
  rewrite F, IH. reflexivity.
Qed.

Lemma lines_total_repeat (row : OrderItem.t) (n : nat) :
  lines_total (repeat row n)
  = Z.of_nat n * (OrderItem.price row * OrderItem.quantity row).
Proof.
  induction n as [| n IH]; [reflexivity |].
  change (lines_total (repeat row (S n)))
    with (OrderItem.price row * OrderItem.quantity row
          + lines_total (repeat row n)).
  rewrite IH. lia.
Qed.

(** The sum of lines 108-114 for that cart, as the runtime gets it: the
    double 6708202045003900 / 2^26, that is 99959999.9935016... *)
Lemma total_D :
  totalAmount_binary64 [product_D] cart_D
  = PrimFloat.div (binary64_of_Z 6708202045003900) (binary64_of_Z (2 ^ 26)).
Proof. vm_compute. reflexivity. Qed.

Lemma forallb_repeat {A : Type} (f : A -> bool) (x : A) (n : nat) :
  f x = true -> forallb f (repeat x n) = true.
Proof.
  intros H. induction n as [| n IH]; simpl; [reflexivity |].
  rewrite H. exact IH.
Qed.

Lemma cart_D_cons :
  cart_D = CartItem.mk "D" 1 :: repeat (CartItem.mk "D" 1) (N.to_nat 2999999).
Proof.
  unfold cart_D.
  change (N.to_nat 3000000) with (Pos.to_nat (Pos.succ 2999999)).
  rewrite Pos2Nat.inj_succ. reflexivity.
Qed.

(** C3: conservation does not hold for every committed order.  Three
    million entries of one unit of a product at 33.32 pass the first
    loop.  The total that lines 108-114 compute in doubles is
    99959999.99350..., which the column of the header keeps as
    99959999.99, a value within its range.  The line items that lines
    136-148 send for the order, all accepted by their table, add up to
    99960000.00. *)
Theorem total_amount_drifts :
  select_products (map CartItem.product_id cart_D) store_D = [product_D] /\
  validate [product_D] cart_D = None /\
  abs_scaled_floor 100000 (totalAmount_binary64 [product_D] cart_D)
  = Some 9995999999350 /\
  numeric_10_2_of_binary64 (totalAmount_binary64 [product_D] cart_D)
  = Some 9995999999 /\
  order_row_ok 9995999999 "pending" = true /\
  forall user,
    let o := fst (insert_order user 9995999999 "pending" store_D) in
    let s1 := snd (insert_order user 9995999999 "pending" store_D) in
    Order.total_amount o = 9995999999 /\
    exists rows,
      orderItems o [product_D] cart_D = Returned rows /\
      forallb (order_item_row_ok s1) rows = true /\
      lines_total rows = 9996000000.
Proof.
  split; [| split; [| split; [| split; [| split]]]].
  - rewrite cart_D_cons. reflexivity.
  - apply validate_repeat. exists product_D.
    split; [reflexivity | simpl; lia].
  - rewrite total_D. reflexivity.
  - rewrite total_D. reflexivity.
  - reflexivity.
  - intros user o s1. split; [reflexivity |].
    eexists. split; [| split].
    + unfold cart_D. apply (orderItems_repeat o [product_D] _ product_D).
      reflexivity.
    + apply forallb_repeat. reflexivity.
    + rewrite lines_total_repeat, N_nat_Z. reflexivity.
Qed.
